(** * Verification of the data-extractor connectivity probe

    Shallow embedding of [functions/data-extractor/__init__.py]: the
    configuration loader, the object-store probe, the database probe and the
    orchestrator [main], together with the properties of the specification
    that concern them. *)

From Stdlib Require Import String Ascii ZArith NArith List Bool.
From stdpp Require Import base option list gmap strings pretty.

Local Open Scope string_scope.
Local Open Scope list_scope.

(** ** Text *)

(** Python [str] values are kept as their UTF-8 bytes; concatenation of
    f-string pieces is concatenation of bytes. *)

Module Text.

Definition nl : string := String (ascii_of_nat 10) EmptyString.

(** [sep.join(l)] *)
Fixpoint join (sep : string) (l : list string) : string :=
  match l with
  | [] => ""
  | [x] => x
  | x :: rest => x +:+ sep +:+ join sep rest
  end.

(** [needle in hay] on Python strings *)
Fixpoint contains (needle hay : string) : bool :=
  String.prefix needle hay ||
  match hay with
  | EmptyString => false
  | String _ rest => contains needle rest
  end.

(** A message names a variable when the variable's name occurs in it. *)
Definition names (msg name : string) : Prop := contains name msg = true.

End Text.

(** ** Python values *)

(** The scalar values that flow through the program: [None], [str], [int]. *)
Inductive pyval : Type :=
| PNone
| PStr (s : string)
| PInt (z : Z).

(** Truth value of an object ([not value] is its negation). *)
Definition truthy (v : pyval) : bool :=
  match v with
  | PNone => false
  | PStr s => negb (String.eqb s "")
  | PInt z => negb (Z.eqb z 0)
  end.

(** [str(v)], as used by f-string interpolation. *)
Definition str (v : pyval) : string :=
  match v with
  | PNone => "None"
  | PStr s => s
  | PInt z => pretty z
  end.

(** ** Exceptions *)

Inductive exn_class : Type :=
| ValueError
| KeyError
| TypeError
| IndexError
| ResourceExistsError            (* azure.core.exceptions *)
| LibraryError (name : string)   (* any other class derived from Exception *)
| KeyboardInterrupt              (* derived from BaseException only *)
| SystemExit.                    (* derived from BaseException only *)

Record exn : Type := Exn { exn_class_of : exn_class; exn_msg : string }.

(** [isinstance(e, Exception)]: what an [except Exception] clause catches. *)
Definition is_Exception (e : exn) : bool :=
  match exn_class_of e with
  | KeyboardInterrupt | SystemExit => false
  | _ => true
  end.

Inductive result (A : Type) : Type :=
| Ok (a : A)
| Raise (e : exn).
Arguments Ok {A} a.
Arguments Raise {A} e.

(** ** Config loader *)

(** [os.getenv(key)] and [os.getenv(key, default)] over [os.environ]. *)
Definition getenv (environ : gmap string string) (key : string) : pyval :=
  match environ !! key with
  | Some v => PStr v
  | None => PNone
  end.

Definition getenv_default (environ : gmap string string) (key dflt : string) : pyval :=
  match environ !! key with
  | Some v => PStr v
  | None => PStr dflt
  end.

Definition get_config_from_env (environ : gmap string string)
  : result (gmap string pyval) :=
  let storage_connection_string := getenv environ "AZURE_STORAGE_CONNECTION_STRING" in
  let postgres_host := getenv environ "POSTGRES_HOST" in
  let postgres_port := getenv_default environ "POSTGRES_PORT" "5432" in
  let postgres_db := getenv environ "POSTGRES_DB" in
  let postgres_user := getenv environ "POSTGRES_USER" in
  let postgres_password := getenv environ "POSTGRES_PASSWORD" in
  if negb (truthy storage_connection_string) then
    Raise (Exn ValueError "缺少环境变量: AZURE_STORAGE_CONNECTION_STRING")
  else
    let postgres_required_vars :=
      [ ("POSTGRES_HOST", postgres_host);
        ("POSTGRES_DB", postgres_db);
        ("POSTGRES_USER", postgres_user);
        ("POSTGRES_PASSWORD", postgres_password) ] in
    let missing_vars :=
      map fst (List.filter (fun '(_, value) => negb (truthy value))
                           postgres_required_vars) in
    match missing_vars with
    | _ :: _ =>
        Raise (Exn ValueError
                 ("缺少PostgreSQL环境变量: " +:+ Text.join ", " missing_vars))
    | [] =>
        Ok (<["storage_connection_string" := storage_connection_string]>
           (<["postgres_host" := postgres_host]>
           (<["postgres_port" := postgres_port]>
           (<["postgres_db" := postgres_db]>
           (<["postgres_user" := postgres_user]>
           (<["postgres_password" := postgres_password]> ∅))))))
    end.

(** The required variables, and what it means for one to be missing. *)
Definition required_vars : list string :=
  [ "AZURE_STORAGE_CONNECTION_STRING"; "POSTGRES_HOST"; "POSTGRES_DB";
    "POSTGRES_USER"; "POSTGRES_PASSWORD" ].

Definition postgres_vars : list string :=
  [ "POSTGRES_HOST"; "POSTGRES_DB"; "POSTGRES_USER"; "POSTGRES_PASSWORD" ].

Definition absent (environ : gmap string string) (key : string) : Prop :=
  environ !! key = None.


(** The record the loader is expected to build from six strings. *)
Definition config_of (storage host port db user password : string)
  : gmap string pyval :=
  <["storage_connection_string" := PStr storage]>
  (<["postgres_host" := PStr host]>
  (<["postgres_port" := PStr port]>
  (<["postgres_db" := PStr db]>
  (<["postgres_user" := PStr user]>
  (<["postgres_password" := PStr password]> ∅))))).

(** ** Clock readings and random identifiers *)

(** [datetime.datetime]: fields within the ranges the class enforces
    (year at most 9999, month 1..12, ..., microsecond below 10^6). *)
Record datetime : Type := Datetime {
  year : N; month : N; day : N;
  hour : N; minute : N; second : N; microsecond : N
}.

Definition digit_char (d : N) : ascii := ascii_of_N (48 + d).

Definition hex_char (d : N) : ascii :=
  if (d <? 10)%N then ascii_of_N (48 + d) else ascii_of_N (87 + d).

(** Zero-padded decimal of fixed width, as [%0wd] prints a number that fits. *)
Fixpoint zfill_dec (width : nat) (n : N) : string :=
  match width with
  | O => ""
  | S w => zfill_dec w (n / 10) +:+ String (digit_char (n mod 10)) ""
  end.

(** Zero-padded lower-case hexadecimal of fixed width, as [%0wx]. *)
Fixpoint zfill_hex (width : nat) (n : N) : string :=
  match width with
  | O => ""
  | S w => zfill_hex w (n / 16) +:+ String (hex_char (n mod 16)) ""
  end.

(** The date of [isoformat]: the year always has four digits there. *)
Definition date_part (t : datetime) : string :=
  zfill_dec 4 (year t) +:+ "-" +:+ zfill_dec 2 (month t) +:+ "-" +:+ zfill_dec 2 (day t).

Definition time_part (t : datetime) : string :=
  zfill_dec 2 (hour t) +:+ ":" +:+ zfill_dec 2 (minute t) +:+ ":" +:+ zfill_dec 2 (second t).

(** [t.strftime('%Y-%m-%d %H:%M:%S')]: the C library prints [%Y] as the
    plain decimal of the year, without padding (a year below 1000 has fewer
    than four digits), and the other fields with two digits. *)
Definition strftime_Ymd_HMS (t : datetime) : string :=
  pretty (year t) +:+ "-" +:+ zfill_dec 2 (month t) +:+ "-" +:+
  zfill_dec 2 (day t) +:+ " " +:+ time_part t.

(** [t.isoformat()]: the fraction is printed only when it is not zero. *)
Definition isoformat (t : datetime) : string :=
  date_part t +:+ "T" +:+ time_part t +:+
  (if (microsecond t =? 0)%N then "" else "." +:+ zfill_dec 6 (microsecond t)).

(** [uuid.UUID], by its 128-bit [int]. *)
Record UUID : Type := Uuid { uuid_int : N }.

(** [str(u)]: 32 hex digits grouped 8-4-4-4-12. *)
Definition str_uuid (u : UUID) : string :=
  let hex := zfill_hex 32 (uuid_int u) in
  substring 0 8 hex +:+ "-" +:+ substring 8 4 hex +:+ "-" +:+
  substring 12 4 hex +:+ "-" +:+ substring 16 4 hex +:+ "-" +:+
  substring 20 12 hex.

(** ** The client libraries, seen from the program *)

Record BlobServiceClient : Type := Service { service_id : nat }.
Record ContainerClient : Type :=
  Container { container_service : BlobServiceClient; container_name_of : string }.
Record BlobClient : Type :=
  Blob { blob_container : ContainerClient; blob_name_of : string }.
Record Connection : Type := Conn { connection_id : nat }.
Record Cursor : Type := Cur { cursor_id : nat }.

(** Both methods only build a client object bound to a name. *)
Definition get_container_client (svc : BlobServiceClient) (name : string)
  : ContainerClient := Container svc name.
Definition get_blob_client (c : ContainerClient) (name : string)
  : BlobClient := Blob c name.

(** A query parameter: a scalar or a dict literal. *)
Inductive param : Type :=
| Arg (v : pyval)
| ArgDict (d : list (string * pyval)).

(** The requests the program sends to the two services. *)
Inductive call : Type :=
| BlobServiceClient_from_connection_string (conn_str : pyval)
| ContainerClient_create_container (c : ContainerClient)
| BlobClient_upload_blob (b : BlobClient) (data : string) (overwrite : bool)
| psycopg2_connect (host port database user password : pyval)
| connection_cursor (c : Connection)
| cursor_execute (cur : Cursor) (query : string) (vars : option (list param))
| cursor_fetchone (cur : Cursor)
| connection_commit (c : Connection)
| connection_rollback (c : Connection)
| connection_close (c : Connection).

Inductive level : Type := INFO | ERROR.

(** What a run leaves behind, in order: requests, log records, and the
    values read from the clock and the random source. *)
Inductive event : Type :=
| Called (c : call)
| Logged (l : level) (msg : string)
| Utcnow (t : datetime)
| Uuid4 (u : UUID).

(** Everything outside the program: the environment variables, the clock,
    the random source and the answers of the two services.  Each answer may
    depend on all that happened before in the run. *)
Record Outside : Type := {
  os_environ : gmap string string;
  datetime_utcnow : list event -> datetime;
  uuid_uuid4 : list event -> UUID;
  from_connection_string : list event -> pyval -> result BlobServiceClient;
  create_container : list event -> ContainerClient -> result unit;
  upload_blob : list event -> BlobClient -> string -> bool -> result unit;
  connect : list event -> pyval -> pyval -> pyval -> pyval -> pyval -> result Connection;
  cursor : list event -> Connection -> result Cursor;
  execute : list event -> Cursor -> string -> option (list param) -> result unit;
  fetchone : list event -> Cursor -> result (option (list pyval));
  commit : list event -> Connection -> result unit;
  rollback : list event -> Connection -> result unit;
  close : list event -> Connection -> result unit
}.

(** ** Program state and control *)

(** The trace so far and the local variable [connection] of
    [test_postgres_connection]. *)
Record state : Type := State {
  trace : list event;
  connection : option Connection
}.

Definition emit (ev : event) (st : state) : state :=
  State (trace st ++ [ev]) (connection st).

Definition M (A : Type) : Type := state -> result A * state.

Definition ret {A} (a : A) : M A := fun st => (Ok a, st).

Definition raise {A} (e : exn) : M A := fun st => (Raise e, st).

Definition bind {A B} (m : M A) (k : A -> M B) : M B :=
  fun st =>
    match m st with
    | (Ok a, st') => k a st'
    | (Raise e, st') => (Raise e, st')
    end.

Definition lift {A} (r : result A) : M A := fun st => (r, st).

Declare Scope prog_scope.
Delimit Scope prog_scope with prog.
Notation "'let*' x ':=' m 'in' k" := (bind m (fun x => k))
  (at level 10, x name, m at level 100, k at level 200) : prog_scope.
Notation "m '>>' k" := (bind m (fun _ => k))
  (at level 100, k at level 200, right associativity) : prog_scope.

(** [try: body except Exception as e: handler e] *)
Definition try_except {A} (body : M A) (handler : exn -> M A) : M A :=
  fun st =>
    match body st with
    | (Ok a, st') => (Ok a, st')
    | (Raise e, st') =>
        if is_Exception e then handler e st' else (Raise e, st')
    end.

(** [try: body finally: fin]: [fin] runs on every exit of [body]; an
    exception of [fin] replaces the outcome of [body]. *)
Definition try_finally {A} (body : M A) (fin : M unit) : M A :=
  fun st =>
    match body st with
    | (r, st') =>
        match fin st' with
        | (Ok _, st'') => (r, st'')
        | (Raise e, st'') => (Raise e, st'')
        end
    end.

(** [d[key]] *)
Definition getitem (d : gmap string pyval) (key : string) : M pyval :=
  match d !! key with
  | Some v => ret v
  | None => raise (Exn KeyError ("'" +:+ key +:+ "'"))
  end.

(** [row[0]] on what [fetchone] returned: a tuple or [None]. *)
Definition subscript0 (row : option (list pyval)) : M pyval :=
  match row with
  | None => raise (Exn TypeError "'NoneType' object is not subscriptable")
  | Some [] => raise (Exn IndexError "tuple index out of range")
  | Some (v :: _) => ret v
  end.

Definition get_connection : M (option Connection) :=
  fun st => (Ok (connection st), st).

Definition set_connection (c : option Connection) : M unit :=
  fun st => (Ok tt, State (trace st) c).

Definition logger_info (msg : string) : M unit :=
  fun st => (Ok tt, emit (Logged INFO msg) st).

Definition logger_error (msg : string) : M unit :=
  fun st => (Ok tt, emit (Logged ERROR msg) st).

(** ** The program *)

Section Program.

Variable O : Outside.

Local Open Scope prog_scope.

(** A request: the service answers from the history, the request is
    appended to the trace. *)
Definition request {A} (c : call) (answer : list event -> result A) : M A :=
  fun st => (answer (trace st), emit (Called c) st).

Definition utcnow : M datetime :=
  fun st =>
    let t := datetime_utcnow O (trace st) in (Ok t, emit (Utcnow t) st).

Definition uuid4 : M UUID :=
  fun st =>
    let u := uuid_uuid4 O (trace st) in (Ok u, emit (Uuid4 u) st).

Definition create_table_query : string :=
  Text.nl +:+
  "        CREATE TABLE IF NOT EXISTS test_table (" +:+ Text.nl +:+
  "            id SERIAL PRIMARY KEY," +:+ Text.nl +:+
  "            test_name VARCHAR(100) NOT NULL," +:+ Text.nl +:+
  "            created_at TIMESTAMP DEFAULT CURRENT_TIMESTAMP," +:+ Text.nl +:+
  "            test_data JSONB" +:+ Text.nl +:+
  "        );" +:+ Text.nl +:+
  "        ".

Definition insert_query : string :=
  Text.nl +:+
  "        INSERT INTO test_table (test_name, test_data)" +:+ Text.nl +:+
  "        VALUES (%s, %s)" +:+ Text.nl +:+
  "        RETURNING id;" +:+ Text.nl +:+
  "        ".

Definition upload_test_file_to_blob (connection_string : pyval) : M string :=
  try_except
    (let* blob_service_client :=
       request (BlobServiceClient_from_connection_string connection_string)
               (fun h => from_connection_string O h connection_string) in
     let container_name := "test-container" in
     let* name_id := uuid4 in
     let blob_name := "test-file-" +:+ str_uuid name_id +:+ ".txt" in
     let container_client :=
       get_container_client blob_service_client container_name in
     try_except
       (request (ContainerClient_create_container container_client)
                (fun h => create_container O h container_client) >>
        logger_info ("创建容器: " +:+ container_name))
       (fun _ => logger_info ("容器已存在: " +:+ container_name)) >>
     let* now := utcnow in
     let* file_id := uuid4 in
     let test_content :=
       "测试文件内容" +:+ Text.nl +:+
       "上传时间: " +:+ isoformat now +:+ Text.nl +:+
       "文件ID: " +:+ str_uuid file_id +:+ Text.nl +:+
       "这是一个用于测试Azure Blob Storage上传功能的文件。" in
     let blob_client := get_blob_client container_client blob_name in
     request (BlobClient_upload_blob blob_client test_content true)
             (fun h => upload_blob O h blob_client test_content true) >>
     ret ("文件上传成功: " +:+ blob_name))
    (fun e =>
       logger_error ("Blob Storage操作失败: " +:+ exn_msg e) >>
       raise e).

(** The [try] block of [test_postgres_connection]. *)
Definition postgres_transaction (config : gmap string pyval) : M string :=
  let* host := getitem config "postgres_host" in
  let* port := getitem config "postgres_port" in
  let* database := getitem config "postgres_db" in
  let* user := getitem config "postgres_user" in
  let* password := getitem config "postgres_password" in
  let* c := request (psycopg2_connect host port database user password)
                    (fun h => connect O h host port database user password) in
  set_connection (Some c) >>
  let* cur := request (connection_cursor c) (fun h => cursor O h c) in
  request (cursor_execute cur create_table_query None)
          (fun h => execute O h cur create_table_query None) >>
  let* id := uuid4 in
  let test_id := str_uuid id in
  let* label_time := utcnow in
  let* payload_time := utcnow in
  let vars :=
    [ Arg (PStr ("测试记录 - " +:+ strftime_Ymd_HMS label_time));
      ArgDict [ ("file_upload", PStr "success");
                ("test_id", PStr test_id);
                ("timestamp", PStr (isoformat payload_time)) ] ] in
  request (cursor_execute cur insert_query (Some vars))
          (fun h => execute O h cur insert_query (Some vars)) >>
  let* row := request (cursor_fetchone cur) (fun h => fetchone O h cur) in
  let* inserted_id := subscript0 row in
  request (connection_commit c) (fun h => commit O h c) >>
  ret ("表创建成功，插入记录ID: " +:+ str inserted_id).

(** The [except Exception as e] block. *)
Definition postgres_on_error (e : exn) : M string :=
  let* connection := get_connection in
  match connection with
  | Some c => request (connection_rollback c) (fun h => rollback O h c)
  | None => ret tt
  end >>
  logger_error ("PostgreSQL操作失败: " +:+ exn_msg e) >>
  raise e.

(** The [finally] block. *)
Definition postgres_finally : M unit :=
  let* connection := get_connection in
  match connection with
  | Some c => request (connection_close c) (fun h => close O h c)
  | None => ret tt
  end.

Definition test_postgres_connection (config : gmap string pyval) : M string :=
  set_connection None >>
  try_finally
    (try_except (postgres_transaction config) postgres_on_error)
    postgres_finally.

Definition main : M string :=
  try_except
    (let* config := lift (get_config_from_env (os_environ O)) in
     logger_info "成功读取环境变量配置" >>
     let* storage_connection_string :=
       getitem config "storage_connection_string" in
     let* blob_result := upload_test_file_to_blob storage_connection_string in
     logger_info ("Blob Storage操作成功: " +:+ blob_result) >>
     let* db_result := test_postgres_connection config in
     logger_info ("PostgreSQL操作成功: " +:+ db_result) >>
     ret "Success")
    (fun e =>
       logger_error ("操作失败: " +:+ exn_msg e) >>
       raise e).

End Program.

(** The state a fresh process starts from. *)
Definition initial : state := State [] None.

(** ** Sample surroundings, used to evaluate the program *)

Module Sample.

Definition environ : gmap string string :=
  <["AZURE_STORAGE_CONNECTION_STRING" := "UseDevelopmentStorage=true"]>
  (<["POSTGRES_HOST" := "localhost"]>
  (<["POSTGRES_DB" := "postgres"]>
  (<["POSTGRES_USER" := "admin"]>
  (<["POSTGRES_PASSWORD" := "secret"]> ∅)))).

Definition environ_with_port : gmap string string :=
<["POSTGRES_PORT" := "6432"]> environ.

Definition environ_without_storage_and_host : gmap string string :=
delete "POSTGRES_HOST" (delete "AZURE_STORAGE_CONNECTION_STRING" environ).

Definition environ_without_db_and_user : gmap string string :=
delete "POSTGRES_USER" (delete "POSTGRES_DB" environ).

Definition environ_empty_host_no_storage : gmap string string :=
<["POSTGRES_HOST" := ""]> (delete "AZURE_STORAGE_CONNECTION_STRING" environ).

Definition environ_empty_password : gmap string string :=
<["POSTGRES_PASSWORD" := ""]> environ.

(** A clock that advances by one second with every event of the run. *)
Definition clock (h : list event) : datetime :=
  Datetime 2024 1 1 0 0 (N.of_nat (length h) mod 60) 5.

Definition random (h : list event) : UUID :=
  Uuid (N.of_nat (length h) + 0xabcdef0123456789).

(** Both services accept every request. *)
Definition healthy : Outside := {|
  os_environ := environ;
  datetime_utcnow := clock;
  uuid_uuid4 := random;
  from_connection_string := fun _ _ => Ok (Service 1);
  create_container := fun _ _ => Ok tt;
  upload_blob := fun _ _ _ _ => Ok tt;
  connect := fun _ _ _ _ _ _ => Ok (Conn 1);
  cursor := fun _ _ => Ok (Cur 1);
  execute := fun _ _ _ _ => Ok tt;
  fetchone := fun _ _ => Ok (Some [PInt 7]);
  commit := fun _ _ => Ok tt;
  rollback := fun _ _ => Ok tt;
  close := fun _ _ => Ok tt
|}.

(** The storage account lets the caller write blobs but not create
    containers: container creation is refused. *)
Definition no_container_permission : Outside := {|
os_environ := environ;
datetime_utcnow := clock;
uuid_uuid4 := random;
from_connection_string := fun _ _ => Ok (Service 1);
create_container := fun _ _ =>
  Raise (Exn (LibraryError "HttpResponseError")
             "This request is not authorized to perform this operation.");
upload_blob := fun _ _ _ _ => Ok tt;
connect := fun _ _ _ _ _ _ => Ok (Conn 1);
cursor := fun _ _ => Ok (Cur 1);
execute := fun _ _ _ _ => Ok tt;
fetchone := fun _ _ => Ok (Some [PInt 7]);
commit := fun _ _ => Ok tt;
rollback := fun _ _ => Ok tt;
close := fun _ _ => Ok tt
|}.

Definition config : gmap string pyval :=
config_of "UseDevelopmentStorage=true" "localhost" "5432" "postgres" "admin" "secret".

(** The database server cannot be reached. *)
Definition database_down : Outside := {|
os_environ := environ;
datetime_utcnow := clock;
uuid_uuid4 := random;
from_connection_string := fun _ _ => Ok (Service 1);
create_container := fun _ _ => Ok tt;
upload_blob := fun _ _ _ _ => Ok tt;
connect := fun _ _ _ _ _ _ =>
  Raise (Exn (LibraryError "OperationalError") "connection refused");
cursor := fun _ _ => Ok (Cur 1);
execute := fun _ _ _ _ => Ok tt;
fetchone := fun _ _ => Ok (Some [PInt 7]);
commit := fun _ _ => Ok tt;
rollback := fun _ _ => Ok tt;
close := fun _ _ => Ok tt
|}.

(** The server accepts the statements and then fails to commit. *)
Definition commit_fails : Outside := {|
os_environ := environ;
datetime_utcnow := clock;
uuid_uuid4 := random;
from_connection_string := fun _ _ => Ok (Service 1);
create_container := fun _ _ => Ok tt;
upload_blob := fun _ _ _ _ => Ok tt;
connect := fun _ _ _ _ _ _ => Ok (Conn 1);
cursor := fun _ _ => Ok (Cur 1);
execute := fun _ _ _ _ => Ok tt;
fetchone := fun _ _ => Ok (Some [PInt 7]);
commit := fun _ _ =>
  Raise (Exn (LibraryError "OperationalError") "server closed the connection");
rollback := fun _ _ => Ok tt;
close := fun _ _ => Ok tt
|}.

(** The storage account rejects the connection string. *)
Definition storage_down : Outside := {|
os_environ := environ;
datetime_utcnow := clock;
uuid_uuid4 := random;
from_connection_string := fun _ _ =>
  Raise (Exn ValueError "Connection string is either blank or malformed.");
create_container := fun _ _ => Ok tt;
upload_blob := fun _ _ _ _ => Ok tt;
connect := fun _ _ _ _ _ _ => Ok (Conn 1);
cursor := fun _ _ => Ok (Cur 1);
execute := fun _ _ _ _ => Ok tt;
fetchone := fun _ _ => Ok (Some [PInt 7]);
commit := fun _ _ => Ok tt;
rollback := fun _ _ => Ok tt;
close := fun _ _ => Ok tt
|}.

(** The process is interrupted while the container is being created. *)
Definition interrupted : Outside := {|
os_environ := environ;
datetime_utcnow := clock;
uuid_uuid4 := random;
from_connection_string := fun _ _ => Ok (Service 1);
create_container := fun _ _ => Raise (Exn KeyboardInterrupt "");
upload_blob := fun _ _ _ _ => Ok tt;
connect := fun _ _ _ _ _ _ => Ok (Conn 1);
cursor := fun _ _ => Ok (Cur 1);
execute := fun _ _ _ _ => Ok tt;
fetchone := fun _ _ => Ok (Some [PInt 7]);
commit := fun _ _ => Ok tt;
rollback := fun _ _ => Ok tt;
close := fun _ _ => Ok tt
|}.

(** The storage account refuses the upload. *)
Definition upload_rejected : Outside := {|
os_environ := environ;
datetime_utcnow := clock;
uuid_uuid4 := random;
from_connection_string := fun _ _ => Ok (Service 1);
create_container := fun _ _ => Ok tt;
upload_blob := fun _ _ _ _ =>
  Raise (Exn (LibraryError "HttpResponseError") "The account is read-only.");
connect := fun _ _ _ _ _ _ => Ok (Conn 1);
cursor := fun _ _ => Ok (Cur 1);
execute := fun _ _ _ _ => Ok tt;
fetchone := fun _ _ => Ok (Some [PInt 7]);
commit := fun _ _ => Ok tt;
rollback := fun _ _ => Ok tt;
close := fun _ _ => Ok tt
|}.

(** The connection breaks after the commit: closing it raises. *)
Definition close_fails : Outside := {|
os_environ := environ;
datetime_utcnow := clock;
uuid_uuid4 := random;
from_connection_string := fun _ _ => Ok (Service 1);
create_container := fun _ _ => Ok tt;
upload_blob := fun _ _ _ _ => Ok tt;
connect := fun _ _ _ _ _ _ => Ok (Conn 1);
cursor := fun _ _ => Ok (Cur 1);
execute := fun _ _ _ _ => Ok tt;
fetchone := fun _ _ => Ok (Some [PInt 7]);
commit := fun _ _ => Ok tt;
rollback := fun _ _ => Ok tt;
close := fun _ _ =>
  Raise (Exn (LibraryError "InterfaceError") "connection already closed")
|}.

(** The connection is lost during the commit: the rollback raises too. *)
Definition rollback_fails : Outside := {|
os_environ := environ;
datetime_utcnow := clock;
uuid_uuid4 := random;
from_connection_string := fun _ _ => Ok (Service 1);
create_container := fun _ _ => Ok tt;
upload_blob := fun _ _ _ _ => Ok tt;
connect := fun _ _ _ _ _ _ => Ok (Conn 1);
cursor := fun _ _ => Ok (Cur 1);
execute := fun _ _ _ _ => Ok tt;
fetchone := fun _ _ => Ok (Some [PInt 7]);
commit := fun _ _ =>
  Raise (Exn (LibraryError "OperationalError") "server closed the connection");
rollback := fun _ _ =>
  Raise (Exn (LibraryError "InterfaceError") "connection already closed");
close := fun _ _ => Ok tt
|}.

(** A configuration without the database name. *)
Definition config_without_db : gmap string pyval := delete "postgres_db" config.

(** The database accepts the INSERT but returns no row for it. *)
Definition no_row : Outside := {|
os_environ := environ;
datetime_utcnow := clock;
uuid_uuid4 := random;
from_connection_string := fun _ _ => Ok (Service 1);
create_container := fun _ _ => Ok tt;
upload_blob := fun _ _ _ _ => Ok tt;
connect := fun _ _ _ _ _ _ => Ok (Conn 1);
cursor := fun _ _ => Ok (Cur 1);
execute := fun _ _ _ _ => Ok tt;
fetchone := fun _ _ => Ok None;
commit := fun _ _ => Ok tt;
rollback := fun _ _ => Ok tt;
close := fun _ _ => Ok tt
|}.


End Sample.


(** A variable is missing for the loader when its value is falsy. *)
Definition missing (environ : gmap string string) (key : string) : Prop :=
  truthy (getenv environ key) = false.

Definition storage_missing_message : string :=
  "缺少环境变量: AZURE_STORAGE_CONNECTION_STRING".

(** ** Reading a trace *)

(** The events a run added to the trace it started from. *)
Definition events_since (st st' : state) : list event :=
  drop (length (trace st)) (trace st').

Definition storage_event (ev : event) : bool :=
  match ev with
  | Called (BlobServiceClient_from_connection_string _)
  | Called (ContainerClient_create_container _)
  | Called (BlobClient_upload_blob _ _ _) => true
  | _ => false
  end.

Definition database_event (ev : event) : bool :=
  match ev with
  | Called (psycopg2_connect _ _ _ _ _)
  | Called (connection_cursor _)
  | Called (cursor_execute _ _ _)
  | Called (cursor_fetchone _)
  | Called (connection_commit _)
  | Called (connection_rollback _)
  | Called (connection_close _) => true
  | _ => false
  end.

(** The blobs written, with the [overwrite] flag of each write. *)
Definition uploads (tr : list event) : list (BlobClient * string * bool) :=
  omap (fun ev => match ev with
                  | Called (BlobClient_upload_blob b data overwrite) =>
                      Some (b, data, overwrite)
                  | _ => None
                  end) tr.


(** The requests that act on an established connection. *)
Definition connection_operation (ev : event) : bool :=
  match ev with
  | Called (connection_cursor _)
  | Called (connection_commit _)
  | Called (connection_rollback _)
  | Called (connection_close _) => true
  | _ => false
  end.

Definition ends_transaction (ev : event) : bool :=
  match ev with
  | Called (connection_rollback _)
  | Called (connection_close _) => true
  | _ => false
  end.


(** How [main] ends when a stage raised [e] in state [st]: an instance of
    [Exception] is logged by the handler of [main], and [e] is raised
    again. *)
Definition reported (e : exn) (st : state) : result string * state :=
  (Raise e,
   if is_Exception e
   then emit (Logged ERROR ("操作失败: " +:+ exn_msg e)) st
   else st).

(** The messages logged at level ERROR, in order. *)
Definition error_logs (tr : list event) : list string :=
  omap (fun ev => match ev with
                  | Logged ERROR msg => Some msg
                  | _ => None
                  end) tr.

(** The keys [test_postgres_connection] reads, in the order it reads them. *)
Definition connect_keys : list string :=
  [ "postgres_host"; "postgres_port"; "postgres_db"; "postgres_user";
    "postgres_password" ].

(** The block at the end of the file, run when the file is executed as a
    script: [result = main()] and then [print]; the last component is what
    was printed. *)
Definition run_as_script (O : Outside) (st : state)
  : result unit * state * list string :=
  match main O st with
  | (Ok result, st') => (Ok tt, st', ["执行结果: " +:+ result])
  | (Raise e, st') => (Raise e, st', [])
  end.

Definition commits (ev : event) : bool :=
  match ev with
  | Called (connection_commit _) => true
  | _ => false
  end.


(** ** Exceptions raised during a run *)






(** The UUIDs drawn, in order. *)
Definition uuids_drawn (tr : list event) : list UUID :=
  omap (fun ev => match ev with
                  | Uuid4 u => Some u
                  | _ => None
                  end) tr.

(** The names of the blobs written, in order. *)
Definition blob_names (tr : list event) : list string :=
  map (fun '(b, _, _) => blob_name_of b) (uploads tr).

(** * Facts *)

(** ** Text *)

Lemma prefix_append (a b : string) : String.prefix a (a +:+ b) = true.
Proof.
  induction a as [|c a IH]; simpl.
  - by destruct b.
  - rewrite IH. destruct (Ascii.ascii_dec c c); congruence.
Qed.

Lemma prefix_refl (n : string) : String.prefix n n = true.
Proof.
  induction n as [|c n IH]; simpl; [done|].
  destruct (Ascii.ascii_dec c c); [done | congruence].
Qed.

Lemma contains_unfold (n h : string) :
  Text.contains n h =
  String.prefix n h ||
  match h with EmptyString => false | String _ rest => Text.contains n rest end.
Proof. by destruct h. Qed.

Lemma contains_append_l (n pre rest : string) :
  Text.contains n rest = true -> Text.contains n (pre +:+ rest) = true.
Proof.
  intros H. induction pre as [|c pre IH]; simpl; [done|].
  rewrite IH. apply orb_true_r.
Qed.

Lemma contains_here (n rest : string) : Text.contains n (n +:+ rest) = true.
Proof. by rewrite contains_unfold, prefix_append. Qed.

Lemma contains_refl (n : string) : Text.contains n n = true.
Proof. by rewrite contains_unfold, prefix_refl. Qed.


Lemma append_last_inj (x y : string) (a b : ascii) :
  x +:+ String a "" = y +:+ String b "" -> x = y /\ a = b.
Proof.
  revert y. induction x as [|c x IH]; intros [|d y]; simpl; intros H.
  - by injection H as ->.
  - injection H as _ H2. by destruct y.
  - injection H as _ H2. by destruct x.
  - injection H as -> H2. by destruct (IH y H2) as [-> ->].
Qed.


(** Every element of a joined list occurs in the result. *)
Lemma join_contains (sep x : string) (l : list string) :
  In x l -> Text.contains x (Text.join sep l) = true.
Proof.
  induction l as [|y [|z l] IH]; intros Hin.
  - destruct Hin.
  - destruct Hin as [->|[]]. apply contains_refl.
  - destruct Hin as [->|Hin].
    + change (Text.contains x (x +:+ sep +:+ Text.join sep (z :: l)) = true).
      apply contains_here.
    + change (Text.contains x (y +:+ sep +:+ Text.join sep (z :: l)) = true).
      apply contains_append_l, contains_append_l, IH, Hin.
Qed.

(** ** Config loader *)

Lemma absent_missing (environ : gmap string string) (key : string) :
  absent environ key -> missing environ key.
Proof. unfold absent, missing, getenv. by intros ->. Qed.

Lemma empty_missing (environ : gmap string string) (key : string) :
  environ !! key = Some "" -> missing environ key.
Proof. unfold missing, getenv. by intros ->. Qed.

Lemma falsy_listed (vars : list (string * pyval)) (v : string) (value : pyval) :
  In (v, value) vars -> truthy value = false ->
  In v (map fst (List.filter (fun '(_, value) => negb (truthy value)) vars)).
Proof.
  intros Hin Hfalse. apply in_map_iff. exists (v, value). split; [done|].
  apply filter_In. split; [done|]. by rewrite Hfalse.
Qed.

Lemma storage_checked_first (environ : gmap string string) :
  missing environ "AZURE_STORAGE_CONNECTION_STRING" ->
  get_config_from_env environ = Raise (Exn ValueError storage_missing_message).
Proof. unfold missing, get_config_from_env. by intros ->. Qed.

Lemma postgres_checked_together (environ : gmap string string) (v : string) :
  truthy (getenv environ "AZURE_STORAGE_CONNECTION_STRING") = true ->
  In v postgres_vars -> missing environ v ->
  exists missing_vars,
    get_config_from_env environ =
      Raise (Exn ValueError
               ("缺少PostgreSQL环境变量: " +:+ Text.join ", " missing_vars)) /\
    forall w, In w postgres_vars -> missing environ w -> In w missing_vars.
Proof.
  intros Hstorage Hv Hmiss. unfold get_config_from_env. rewrite Hstorage.
  cbv zeta. cbn [negb].
  set (required := [("POSTGRES_HOST", _); _; _; _]).
  assert (Hall : forall w, In w postgres_vars -> missing environ w ->
            In w (map fst (List.filter (fun '(_, value) => negb (truthy value))
                                       required))).
  { intros w Hw Hmw. apply (falsy_listed required w (getenv environ w)); [|exact Hmw].
    unfold required, postgres_vars in *. simpl in Hw |- *.
    destruct Hw as [<-|[<-|[<-|[<-|[]]]]]; simpl; tauto. }
  destruct (map fst _) as [|m ms] eqn:E.
  - destruct (Hall v Hv Hmiss).
  - exists (m :: ms). split; [done | exact Hall].
Qed.

Lemma truthy_getenv (environ : gmap string string) (key : string) :
  truthy (getenv environ key) = true ->
  exists s, environ !! key = Some s /\ s <> "".
Proof.
  unfold getenv. destruct (environ !! key) as [s|]; [|done].
  intros H. exists s. split; [done|]. by intros ->.
Qed.

(** What a configuration returned by the loader is made of. *)
Lemma loader_ok_inv (environ : gmap string string) (config : gmap string pyval) :
  get_config_from_env environ = Ok config ->
  (forall v, In v required_vars -> truthy (getenv environ v) = true) /\
  config =
    <["storage_connection_string" := getenv environ "AZURE_STORAGE_CONNECTION_STRING"]>
    (<["postgres_host" := getenv environ "POSTGRES_HOST"]>
    (<["postgres_port" := getenv_default environ "POSTGRES_PORT" "5432"]>
    (<["postgres_db" := getenv environ "POSTGRES_DB"]>
    (<["postgres_user" := getenv environ "POSTGRES_USER"]>
    (<["postgres_password" := getenv environ "POSTGRES_PASSWORD"]> ∅))))).
Proof.
  unfold get_config_from_env. cbv zeta. cbn [List.filter map fst].
  destruct (truthy (getenv environ "AZURE_STORAGE_CONNECTION_STRING")) eqn:E0;
    [|done].
  destruct (truthy (getenv environ "POSTGRES_HOST")) eqn:E1;
  destruct (truthy (getenv environ "POSTGRES_DB")) eqn:E2;
  destruct (truthy (getenv environ "POSTGRES_USER")) eqn:E3;
  destruct (truthy (getenv environ "POSTGRES_PASSWORD")) eqn:E4;
  try done.
  intros [= <-]. split; [|reflexivity].
  intros v [<-|[<-|[<-|[<-|[<-|[]]]]]]; assumption.
Qed.

(** What the loader does when a required variable is missing. *)
Lemma loader_rejects (environ : gmap string string) :
  (exists v, In v required_vars /\ missing environ v) ->
  exists msg,
    get_config_from_env environ = Raise (Exn ValueError msg) /\
    if truthy (getenv environ "AZURE_STORAGE_CONNECTION_STRING")
    then forall v, In v required_vars -> missing environ v -> Text.names msg v
    else msg = storage_missing_message.
Proof.
  intros (v & Hv & Hmiss).
  destruct (truthy (getenv environ "AZURE_STORAGE_CONNECTION_STRING")) eqn:Hst.
  - assert (Hpg : forall w, In w required_vars -> missing environ w ->
                            In w postgres_vars).
    { intros w [<-|Hw] Hmw; [|done]. unfold missing in Hmw. congruence. }
    destruct (postgres_checked_together environ v Hst (Hpg v Hv Hmiss) Hmiss)
      as (ms & Hrun & Hall).
    eexists. split; [exact Hrun|]. intros w Hw Hmw. unfold Text.names. simpl exn_msg.
    apply contains_append_l, join_contains, Hall; [|done]. by apply Hpg.
  - exists storage_missing_message. split; [|done]. by apply storage_checked_first.
Qed.

(** The loader looks at the values of the required variables only through
    their truth value, as long as it rejects the environment. *)
Lemma loader_only_tests_truth (e1 e2 : gmap string string) :
  (forall k, In k required_vars ->
             truthy (getenv e1 k) = truthy (getenv e2 k)) ->
  (exists v, In v required_vars /\ missing e1 v) ->
  get_config_from_env e1 = get_config_from_env e2.
Proof.
  intros Hsame (v & Hv & Hmiss). unfold missing in Hmiss.
  assert (Hst := Hsame "AZURE_STORAGE_CONNECTION_STRING").
  assert (Hh := Hsame "POSTGRES_HOST").
  assert (Hd := Hsame "POSTGRES_DB").
  assert (Hu := Hsame "POSTGRES_USER").
  assert (Hp := Hsame "POSTGRES_PASSWORD").
  unfold required_vars in *. simpl in Hst, Hh, Hd, Hu, Hp, Hv.
  unfold get_config_from_env. cbv zeta. cbn [List.filter map fst].
  rewrite Hst, Hh, Hd, Hu, Hp by tauto.
  assert (Hv' : truthy (getenv e2 v) = false) by (rewrite <- Hsame; [done | simpl; tauto]).
  destruct (truthy (getenv e2 "AZURE_STORAGE_CONNECTION_STRING")) eqn:E0; [|done].
  destruct (truthy (getenv e2 "POSTGRES_HOST")) eqn:E1;
  destruct (truthy (getenv e2 "POSTGRES_DB")) eqn:E2;
  destruct (truthy (getenv e2 "POSTGRES_USER")) eqn:E3;
  destruct (truthy (getenv e2 "POSTGRES_PASSWORD")) eqn:E4;
  try reflexivity.
  destruct Hv as [<-|[<-|[<-|[<-|[<-|[]]]]]]; congruence.
Qed.

(** C3: when the five required variables are set to non-empty values the
    loader succeeds and returns exactly the values of the environment; the
    port is the value of POSTGRES_PORT when it is set and the string 5432
    when it is not. *)
Theorem loader_returns_environment
    (environ : gmap string string) (storage host db user password : string) :
  environ !! "AZURE_STORAGE_CONNECTION_STRING" = Some storage ->
  environ !! "POSTGRES_HOST" = Some host ->
  environ !! "POSTGRES_DB" = Some db ->
  environ !! "POSTGRES_USER" = Some user ->
  environ !! "POSTGRES_PASSWORD" = Some password ->
  storage <> "" -> host <> "" -> db <> "" -> user <> "" -> password <> "" ->
  (forall port,
     environ !! "POSTGRES_PORT" = Some port ->
     get_config_from_env environ =
       Ok (config_of storage host port db user password)) /\
  (environ !! "POSTGRES_PORT" = None ->
     get_config_from_env environ =
       Ok (config_of storage host "5432" db user password)).
Proof.
  intros Hs Hh Hd Hu Hp Ns Nh Nd Nu Np.
  assert (T : forall s, s <> "" -> truthy (PStr s) = true)
    by (intros [|c s] Hne; [done | reflexivity]).
  split; [intros port Hport | intros Hport];
    unfold get_config_from_env, getenv, getenv_default, config_of;
    rewrite Hs, Hh, Hd, Hu, Hp, Hport; cbv zeta; cbn [List.filter map fst];
    rewrite !T by done; reflexivity.
Qed.

(** The sample environment, with and without POSTGRES_PORT. *)
Lemma loader_returns_environment_witness :
  get_config_from_env Sample.environ_with_port =
    Ok (config_of "UseDevelopmentStorage=true" "localhost" "6432"
                  "postgres" "admin" "secret") /\
  get_config_from_env Sample.environ =
    Ok (config_of "UseDevelopmentStorage=true" "localhost" "5432"
                  "postgres" "admin" "secret").
Proof.
  split.
  - apply (proj1 (loader_returns_environment Sample.environ_with_port
             "UseDevelopmentStorage=true" "localhost" "postgres" "admin" "secret"
             eq_refl eq_refl eq_refl eq_refl eq_refl
             ltac:(discriminate) ltac:(discriminate) ltac:(discriminate)
             ltac:(discriminate) ltac:(discriminate))).
    reflexivity.
  - apply (proj2 (loader_returns_environment Sample.environ
             "UseDevelopmentStorage=true" "localhost" "postgres" "admin" "secret"
             eq_refl eq_refl eq_refl eq_refl eq_refl
             ltac:(discriminate) ltac:(discriminate) ltac:(discriminate)
             ltac:(discriminate) ltac:(discriminate))).
    reflexivity.
Defined.

(** C1, as stated, fails: with the storage connection string and
    POSTGRES_HOST both absent the message names the former only. *)
Lemma loader_message_omits_postgres_host :
  absent Sample.environ_without_storage_and_host "AZURE_STORAGE_CONNECTION_STRING" /\
  absent Sample.environ_without_storage_and_host "POSTGRES_HOST" /\
  get_config_from_env Sample.environ_without_storage_and_host =
    Raise (Exn ValueError storage_missing_message) /\
  Text.contains "POSTGRES_HOST" storage_missing_message = false.
Proof. repeat split; vm_compute; reflexivity. Qed.

(** C1, amended: when one or more required variables are absent the loader
    fails with a ValueError.  When the storage connection string is among
    the missing ones the message is the one about that variable alone;
    otherwise the message names every absent variable at once. *)
Theorem loader_names_missing (environ : gmap string string) :
  (exists v, In v required_vars /\ absent environ v) ->
  exists msg,
    get_config_from_env environ = Raise (Exn ValueError msg) /\
    if truthy (getenv environ "AZURE_STORAGE_CONNECTION_STRING")
    then forall v, In v required_vars -> absent environ v -> Text.names msg v
    else msg = storage_missing_message /\
         Text.names msg "AZURE_STORAGE_CONNECTION_STRING".
Proof.
  intros (v & Hv & Habs).
  destruct (loader_rejects environ) as (msg & Hrun & Hmsg).
  { exists v. split; [done|]. by apply absent_missing. }
  exists msg. split; [done|].
  destruct (truthy _).
  - intros w Hw Hw'. apply Hmsg; [done|]. by apply absent_missing.
  - subst msg. split; [done|]. by vm_compute.
Qed.

(** An environment without POSTGRES_DB and POSTGRES_USER. *)
Lemma loader_names_missing_witness :
  exists msg,
    get_config_from_env Sample.environ_without_db_and_user =
      Raise (Exn ValueError msg) /\
    if truthy (getenv Sample.environ_without_db_and_user
                      "AZURE_STORAGE_CONNECTION_STRING")
    then forall v, In v required_vars ->
                   absent Sample.environ_without_db_and_user v ->
                   Text.names msg v
    else msg = storage_missing_message /\
         Text.names msg "AZURE_STORAGE_CONNECTION_STRING".
Proof.
  apply (loader_names_missing Sample.environ_without_db_and_user).
  exists "POSTGRES_DB". split; [simpl; tauto | reflexivity].
Defined.

(** C9, as stated, fails: POSTGRES_HOST set to the empty string is not
    named when the storage connection string is missing too. *)
Lemma loader_message_omits_empty_host :
  Sample.environ_empty_host_no_storage !! "POSTGRES_HOST" = Some "" /\
  get_config_from_env Sample.environ_empty_host_no_storage =
    Raise (Exn ValueError storage_missing_message) /\
  Text.contains "POSTGRES_HOST" storage_missing_message = false.
Proof. repeat split; vm_compute; reflexivity. Qed.

(** C9, amended: a required variable set to the empty string is treated
    exactly like an absent one: the loader gives the same result as with
    the variable removed, and that result is a ValueError.  The variable is
    named in the message when it is the storage connection string or when
    the storage connection string is set to a non-empty value; otherwise
    the message is the one about the storage connection string alone. *)
Theorem loader_empty_like_absent (environ : gmap string string) (v : string) :
  In v required_vars ->
  environ !! v = Some "" ->
  get_config_from_env environ = get_config_from_env (delete v environ) /\
  exists msg,
    get_config_from_env environ = Raise (Exn ValueError msg) /\
    (v = "AZURE_STORAGE_CONNECTION_STRING" -> Text.names msg v) /\
    (truthy (getenv environ "AZURE_STORAGE_CONNECTION_STRING") = true ->
     Text.names msg v) /\
    (truthy (getenv environ "AZURE_STORAGE_CONNECTION_STRING") = false ->
     msg = storage_missing_message).
Proof.
  intros Hv Hempty.
  assert (Hmiss : missing environ v) by by apply empty_missing.
  split.
  - apply loader_only_tests_truth; [|by exists v].
    intros k _. unfold getenv. destruct (decide (k = v)) as [->|Hne].
    + by rewrite lookup_delete_eq, Hempty.
    + by rewrite lookup_delete_ne.
  - destruct (loader_rejects environ) as (msg & Hrun & Hmsg); [by exists v|].
    exists msg. split; [done|]. split; [|split].
    + intros ->. rewrite Hmiss in Hmsg. subst msg. by vm_compute.
    + intros Hst. rewrite Hst in Hmsg. by apply Hmsg.
    + intros Hst. by rewrite Hst in Hmsg.
Qed.

(** An environment whose POSTGRES_PASSWORD is the empty string. *)
Lemma loader_empty_like_absent_witness :
  get_config_from_env Sample.environ_empty_password =
    get_config_from_env (delete "POSTGRES_PASSWORD" Sample.environ_empty_password) /\
  exists msg,
    get_config_from_env Sample.environ_empty_password = Raise (Exn ValueError msg) /\
    ("POSTGRES_PASSWORD" = "AZURE_STORAGE_CONNECTION_STRING" ->
     Text.names msg "POSTGRES_PASSWORD") /\
    (truthy (getenv Sample.environ_empty_password
                    "AZURE_STORAGE_CONNECTION_STRING") = true ->
     Text.names msg "POSTGRES_PASSWORD") /\
    (truthy (getenv Sample.environ_empty_password
                    "AZURE_STORAGE_CONNECTION_STRING") = false ->
     msg = storage_missing_message).
Proof.
  apply (loader_empty_like_absent Sample.environ_empty_password "POSTGRES_PASSWORD").
  - simpl. tauto.
  - reflexivity.
Defined.

(** ** Running the program *)

Lemma events_since_app (st st' : state) (added : list event) :
  trace st' = trace st ++ added -> events_since st st' = added.
Proof. unfold events_since. intros ->. by rewrite drop_app_length. Qed.

Ltac unfold_program :=
  unfold main, test_postgres_connection, postgres_transaction,
    postgres_on_error, postgres_finally, upload_test_file_to_blob,
    getitem, subscript0, get_container_client, get_blob_client in *;
  unfold try_except, try_finally, bind, lift, request, uuid4, utcnow,
    logger_info, logger_error, get_connection, set_connection, ret, raise,
    emit in *.

Ltac step :=
  match goal with
  | |- context [match ?x with _ => _ end] =>
      lazymatch x with
      | context [match _ with _ => _ end] => fail
      | _ => let E := fresh "E" in destruct x eqn:E
      end
  end.

Ltac normalise_trace := cbn [trace connection]; rewrite <- ?app_assoc; cbn [app].

Lemma upload_touches_storage_only (O : Outside) (cs : pyval) (st : state) :
  exists added,
    trace (upload_test_file_to_blob O cs st).2 = trace st ++ added /\
    forallb (fun ev => negb (database_event ev)) added = true /\
    connection (upload_test_file_to_blob O cs st).2 = connection st.
Proof.
  unfold_program. cbn [trace connection fst snd].
  repeat step; normalise_trace; eexists; (split; [reflexivity|]); done.
Qed.



(** What a successful run of the object-store probe leaves in the trace. *)
Lemma upload_success_trace (O : Outside) (cs : pyval) (st : state)
    (s : string) (st' : state) :
  upload_test_file_to_blob O cs st = (Ok s, st') ->
  exists svc name_id log now file_id content,
    let container := Container svc "test-container" in
    let blob_name := "test-file-" +:+ str_uuid name_id +:+ ".txt" in
    events_since st st' =
      [ Called (BlobServiceClient_from_connection_string cs);
        Uuid4 name_id;
        Called (ContainerClient_create_container container);
        Logged INFO log;
        Utcnow now;
        Uuid4 file_id;
        Called (BlobClient_upload_blob (Blob container blob_name) content true) ] /\
    s = "文件上传成功: " +:+ blob_name.
Proof.
  unfold_program. cbn zeta. repeat step; intros H; simplify_eq.
  all: do 6 eexists; split; [|reflexivity].
  all: apply events_since_app; normalise_trace; reflexivity.
Qed.



(** C2 on the code: whatever exception container creation raises, the
    probe logs that the container exists and goes on to the upload; when
    the upload is accepted the probe reports success.  The exception of
    container creation is neither logged as an error nor propagated. *)
Theorem create_container_failure_swallowed (O : Outside) (cs : pyval)
    (st : state) (svc : BlobServiceClient) (e : exn) :
  let name_id :=
    uuid_uuid4 O (trace st ++ [Called (BlobServiceClient_from_connection_string cs)]) in
  let container := Container svc "test-container" in
  let blob_name := "test-file-" +:+ str_uuid name_id +:+ ".txt" in
  from_connection_string O (trace st) cs = Ok svc ->
  create_container O
    (trace st ++ [ Called (BlobServiceClient_from_connection_string cs);
                   Uuid4 name_id ])
    container = Raise e ->
  is_Exception e = true ->
  exists now file_id content rest,
    let attempted :=
      [ Called (BlobServiceClient_from_connection_string cs);
        Uuid4 name_id;
        Called (ContainerClient_create_container container);
        Logged INFO "容器已存在: test-container";
        Utcnow now;
        Uuid4 file_id ] in
    events_since st (upload_test_file_to_blob O cs st).2 =
      attempted ++
      Called (BlobClient_upload_blob (Blob container blob_name) content true) ::
      rest /\
    (upload_blob O (trace st ++ attempted) (Blob container blob_name) content true
       = Ok tt ->
     (upload_test_file_to_blob O cs st).1 = Ok ("文件上传成功: " +:+ blob_name) /\
     rest = []).
Proof.
  cbn zeta. intros Hsvc Hcreate Hexn.
  unfold_program. rewrite Hsvc. cbn [trace connection].
  rewrite <- app_assoc. cbn [app]. rewrite Hcreate, Hexn.
  cbn [trace connection]. rewrite <- !app_assoc. cbn [app].
  do 3 eexists.
  match goal with
  | |- context [match ?x with _ => _ end] => destruct x as [[]|e'] eqn:Hup
  end.
  - exists []. split.
    + apply events_since_app. normalise_trace. reflexivity.
    + done.
  - destruct (is_Exception e').
    + eexists. split.
      * apply events_since_app. normalise_trace. reflexivity.
      * intros H. match type of Hup with ?a = _ => change (a = Ok tt) in H end.
        congruence.
    + exists []. split.
      * apply events_since_app. normalise_trace. reflexivity.
      * intros H. match type of Hup with ?a = _ => change (a = Ok tt) in H end.
        congruence.
Qed.

(** The failing input of C2: container creation is refused for lack of
    permission, and the probe still reports success. *)
Lemma create_container_failure_swallowed_witness :
  exists now file_id content rest,
    events_since initial
      (upload_test_file_to_blob Sample.no_container_permission (PStr "cs") initial).2 =
      [ Called (BlobServiceClient_from_connection_string (PStr "cs"));
        Uuid4 (Uuid 12379813738877118346);
        Called (ContainerClient_create_container
                  (Container (Service 1) "test-container"));
        Logged INFO "容器已存在: test-container";
        Utcnow now;
        Uuid4 file_id ] ++
      Called (BlobClient_upload_blob
                (Blob (Container (Service 1) "test-container")
                      "test-file-00000000-0000-0000-abcd-ef012345678a.txt")
                content true) :: rest /\
    (Ok tt = Ok tt ->
     (upload_test_file_to_blob Sample.no_container_permission (PStr "cs") initial).1 =
       Ok "文件上传成功: test-file-00000000-0000-0000-abcd-ef012345678a.txt" /\
     rest = []).
Proof.
  apply (create_container_failure_swallowed Sample.no_container_permission
           (PStr "cs") initial (Service 1)
           (Exn (LibraryError "HttpResponseError")
                "This request is not authorized to perform this operation."));
    reflexivity.
Defined.

(** ** Database probe *)

(** C10: when [psycopg2.connect] itself raises, the probe propagates that
    exception; the only request of the run is the connection attempt, so
    neither rollback nor close nor any other operation is invoked on a
    connection, and the variable [connection] is still [None]. *)
Theorem connect_failure_touches_nothing (O : Outside)
    (config : gmap string pyval) (st : state)
    (host port database user password : pyval) (e : exn) :
  config !! "postgres_host" = Some host ->
  config !! "postgres_port" = Some port ->
  config !! "postgres_db" = Some database ->
  config !! "postgres_user" = Some user ->
  config !! "postgres_password" = Some password ->
  connect O (trace st) host port database user password = Raise e ->
  exists st',
    test_postgres_connection O config st = (Raise e, st') /\
    connection st' = None /\
    events_since st st' =
      Called (psycopg2_connect host port database user password) ::
      (if is_Exception e
       then [Logged ERROR ("PostgreSQL操作失败: " +:+ exn_msg e)]
       else []) /\
    forallb (fun ev => negb (connection_operation ev)) (events_since st st') = true.
Proof.
  intros Hh Hp Hd Hu Hw Hconnect. unfold_program.
  rewrite Hh, Hp, Hd, Hu, Hw. cbn [trace connection]. rewrite Hconnect.
  destruct (is_Exception e); cbn [trace connection]; eexists;
    (split; [reflexivity|]); (split; [reflexivity|]);
    erewrite events_since_app by (normalise_trace; reflexivity); done.
Qed.

(** The run of the probe against a database that refuses connections. *)
Lemma connect_failure_touches_nothing_witness :
  exists st',
    test_postgres_connection Sample.database_down Sample.config initial =
      (Raise (Exn (LibraryError "OperationalError") "connection refused"), st') /\
    connection st' = None /\
    events_since initial st' =
      [ Called (psycopg2_connect (PStr "localhost") (PStr "5432") (PStr "postgres")
                                 (PStr "admin") (PStr "secret"));
        Logged ERROR "PostgreSQL操作失败: connection refused" ] /\
    forallb (fun ev => negb (connection_operation ev)) (events_since initial st') = true.
Proof.
  apply (connect_failure_touches_nothing Sample.database_down Sample.config initial
           (PStr "localhost") (PStr "5432") (PStr "postgres") (PStr "admin")
           (PStr "secret") (Exn (LibraryError "OperationalError") "connection refused"));
    reflexivity.
Defined.


(** The [except] and [finally] blocks, run after the [try] block. *)
Lemma postgres_unwind (O : Outside) (config : gmap string pyval) (st : state)
    (r : result string) (st1 : state) :
  postgres_transaction O config (State (trace st) None) = (r, st1) ->
  test_postgres_connection O config st =
    let '(r1, st2) :=
      match r with
      | Ok s => (Ok s, st1)
      | Raise e => if is_Exception e then postgres_on_error O e st1
                   else (Raise e, st1)
      end in
    match postgres_finally O st2 with
    | (Ok _, st3) => (r1, st3)
    | (Raise e, st3) => (Raise e, st3)
    end.
Proof.
  intros Htx.
  unfold test_postgres_connection, bind, set_connection, try_finally, try_except.
  rewrite Htx. by destruct r.
Qed.





(** The run behind the witness: commit raises, the probe rolls back, logs,
    closes and raises the exception of commit. *)
Example commit_failure_run :
  exists history,
    test_postgres_connection Sample.commit_fails Sample.config initial =
      (Raise (Exn (LibraryError "OperationalError") "server closed the connection"),
       State (history ++
              [ Called (connection_commit (Conn 1));
                Called (connection_rollback (Conn 1));
                Logged ERROR "PostgreSQL操作失败: server closed the connection";
                Called (connection_close (Conn 1)) ])
             (Some (Conn 1))) /\
    forallb (fun ev => negb (ends_transaction ev)) history = true.
Proof. eexists (_ :: _ :: _ :: _ :: _ :: _ :: _ :: [_]). by vm_compute. Qed.








(** ** Orchestrator *)

Lemma loader_only_raises_ValueError (environ : gmap string string) (e : exn) :
  get_config_from_env environ = Raise e -> is_Exception e = true.
Proof.
  unfold get_config_from_env. cbv zeta.
  destruct (negb _); [by intros [= <-]|].
  destruct (map fst _); [done | by intros [= <-]].
Qed.

Lemma loader_result_has_storage (environ : gmap string string)
    (config : gmap string pyval) :
  get_config_from_env environ = Ok config ->
  config !! "storage_connection_string" =
    Some (getenv environ "AZURE_STORAGE_CONNECTION_STRING").
Proof.
  unfold get_config_from_env. cbv zeta.
  destruct (negb _); [done|].
  destruct (map fst _); [|done]. intros [= <-]. apply lookup_insert_eq.
Qed.

Lemma postgres_touches_database_only (O : Outside)
    (config : gmap string pyval) (st : state) :
  exists added,
    trace (test_postgres_connection O config st).2 = trace st ++ added /\
    forallb (fun ev => negb (storage_event ev)) added = true.
Proof.
  unfold_program. cbn [trace connection fst snd].
  repeat (step; cbn [trace connection fst snd]);
    normalise_trace; eexists;
    (split; [first [reflexivity | symmetry; apply app_nil_r]|]); done.
Qed.

(** [main], stage by stage. *)
Lemma main_stages (O : Outside) (st : state) :
  main O st =
  match get_config_from_env (os_environ O) with
  | Raise e => reported e st
  | Ok config =>
      let st0 := emit (Logged INFO "成功读取环境变量配置") st in
      match config !! "storage_connection_string" with
      | None => reported (Exn KeyError "'storage_connection_string'") st0
      | Some cs =>
          match upload_test_file_to_blob O cs st0 with
          | (Raise e, st1) => reported e st1
          | (Ok blob_result, st1) =>
              let st1' :=
                emit (Logged INFO ("Blob Storage操作成功: " +:+ blob_result)) st1 in
              match test_postgres_connection O config st1' with
              | (Raise e, st2) => reported e st2
              | (Ok db_result, st2) =>
                  (Ok "Success",
                   emit (Logged INFO ("PostgreSQL操作成功: " +:+ db_result)) st2)
              end
          end
      end
  end.
Proof.
  unfold main, try_except, bind, lift, logger_info, logger_error, getitem,
    ret, raise, reported.
  destruct (get_config_from_env (os_environ O)) as [config|e];
    [|by destruct (is_Exception e)].
  cbv zeta. destruct (config !! "storage_connection_string") as [cs|]; [|done].
  destruct (upload_test_file_to_blob O cs _) as [[blob_result|e] st1];
    [|by destruct (is_Exception e)].
  destruct (test_postgres_connection O config _) as [[db_result|e] st2];
    [done | by destruct (is_Exception e)].
Qed.

Lemma events_since_emit (st st' : state) (added : list event) (ev : event) :
  trace st' = trace st ++ added ->
  events_since st (emit ev st') = added ++ [ev].
Proof.
  intros H. apply events_since_app. unfold emit. cbn [trace].
  by rewrite H, <- app_assoc.
Qed.

Lemma events_since_reported (st st' : state) (added : list event) (e : exn) :
  trace st' = trace st ++ added ->
  events_since st (reported e st').2 =
    added ++ (if is_Exception e
              then [Logged ERROR ("操作失败: " +:+ exn_msg e)] else []).
Proof.
  intros H. unfold reported. cbn [snd]. destruct (is_Exception e).
  - by apply events_since_emit.
  - rewrite app_nil_r. by apply events_since_app.
Qed.

(** C4, as stated, fails: an interrupt raised in the object-store probe
    leaves [main] without any error record; it is raised again, and the
    database stage is not run. *)
Lemma main_interrupt_not_logged :
  exists st',
    main Sample.interrupted initial = (Raise (Exn KeyboardInterrupt ""), st') /\
    In (Called (ContainerClient_create_container
                  (Container (Service 1) "test-container"))) (trace st') /\
    error_logs (trace st') = [] /\
    forallb (fun ev => negb (database_event ev)) (trace st') = true.
Proof.
  eexists. split; [vm_compute; reflexivity|].
  split; [simpl; tauto|]. by vm_compute.
Qed.

(** C4, amended: [main] loads the configuration, then runs the
    object-store probe, then the database probe.  A stage is started only
    when the stages before it have returned; when a stage raises, [main]
    raises the exception again and no later stage runs: after a failure of
    the object-store probe the trace holds no database request.  [main]
    logs the exception before raising it again when it is an instance of
    [Exception], and writes no record for any other exception.  In every
    run all storage requests come before all database requests. *)
Theorem main_strict_sequence (O : Outside) (st : state) :
  let st0 := emit (Logged INFO "成功读取环境变量配置") st in
  match get_config_from_env (os_environ O) with
  | Raise e =>
      main O st = reported e st /\
      events_since st (main O st).2 = [Logged ERROR ("操作失败: " +:+ exn_msg e)]
  | Ok config =>
      exists cs,
        config !! "storage_connection_string" = Some cs /\
        match upload_test_file_to_blob O cs st0 with
        | (Raise e, st1) =>
            main O st = reported e st1 /\
            forallb (fun ev => negb (database_event ev))
                    (events_since st (main O st).2) = true
        | (Ok blob_result, st1) =>
            let st1' :=
              emit (Logged INFO ("Blob Storage操作成功: " +:+ blob_result)) st1 in
            match test_postgres_connection O config st1' with
            | (Raise e, st2) => main O st = reported e st2
            | (Ok db_result, st2) =>
                main O st =
                  (Ok "Success",
                   emit (Logged INFO ("PostgreSQL操作成功: " +:+ db_result)) st2)
            end /\
            exists database_part,
              events_since st (main O st).2 =
                events_since st st1' ++ database_part /\
              forallb (fun ev => negb (database_event ev))
                      (events_since st st1') = true /\
              forallb (fun ev => negb (storage_event ev)) database_part = true
        end
  end.
Proof.
  cbv zeta. rewrite main_stages. cbv zeta.
  destruct (get_config_from_env (os_environ O)) as [config|e] eqn:Hconfig.
  - exists (getenv (os_environ O) "AZURE_STORAGE_CONNECTION_STRING").
    rewrite (loader_result_has_storage _ _ Hconfig). split; [reflexivity|].
    set (cs := getenv _ _).
    set (st0 := emit (Logged INFO "成功读取环境变量配置") st).
    destruct (upload_touches_storage_only O cs st0) as (au & Hau & Hqu & _).
    destruct (upload_test_file_to_blob O cs st0) as [[blob_result|e] st1];
      cbn [snd] in Hau.
    + set (log1 := Logged INFO ("Blob Storage操作成功: " +:+ blob_result)).
      assert (Hst1 : trace (emit log1 st1) =
                     trace st ++ Logged INFO "成功读取环境变量配置" :: au ++ [log1]).
      { unfold st0, emit in *. cbn [trace] in *. rewrite Hau.
        by rewrite <- !app_assoc. }
      destruct (postgres_touches_database_only O config (emit log1 st1))
        as (ap & Hap & Hqp).
      rewrite (events_since_app _ _ _ Hst1).
      assert (Hquiet : forallb (fun ev => negb (database_event ev))
                (Logged INFO "成功读取环境变量配置" :: au ++ [log1]) = true).
      { cbn [forallb]. rewrite forallb_app, Hqu. reflexivity. }
      destruct (test_postgres_connection O config (emit log1 st1))
        as [[db_result|e] st2]; cbn [snd] in Hap; rewrite Hst1 in Hap;
        rewrite <- app_assoc in Hap; (split; [reflexivity|]).
      * eexists. split; [|split; [exact Hquiet|]].
        -- cbn [snd]. rewrite app_assoc. by apply events_since_emit.
        -- rewrite forallb_app, Hqp. reflexivity.
      * eexists. split; [|split; [exact Hquiet|]].
        -- rewrite app_assoc. by apply events_since_reported.
        -- rewrite forallb_app, Hqp. by destruct (is_Exception e).
    + split; [reflexivity|].
      assert (Hst1 : trace st1 =
                     trace st ++ Logged INFO "成功读取环境变量配置" :: au).
      { unfold st0, emit in *. cbn [trace] in *. rewrite Hau.
        by rewrite <- !app_assoc. }
      rewrite (events_since_reported st st1 _ e Hst1).
      rewrite forallb_app. cbn [forallb]. rewrite Hqu.
      by destruct (is_Exception e).
  - split; [reflexivity|].
    unfold reported. rewrite (loader_only_raises_ValueError _ _ Hconfig).
    cbn [snd]. apply events_since_app. reflexivity.
Qed.

(** ** What was raised, and what [main] raises *)










(** Two runs of [main]: with both services healthy, and with a storage
    account that rejects the connection string. *)
Example healthy_run : (main Sample.healthy initial).1 = Ok "Success".
Proof. by vm_compute. Qed.

Example storage_failure_run :
  main Sample.storage_down initial =
    (Raise (Exn ValueError "Connection string is either blank or malformed."),
     State [ Logged INFO "成功读取环境变量配置";
             Called (BlobServiceClient_from_connection_string
                       (PStr "UseDevelopmentStorage=true"));
             Logged ERROR
               "Blob Storage操作失败: Connection string is either blank or malformed.";
             Logged ERROR
               "操作失败: Connection string is either blank or malformed." ]
           None).
Proof. by vm_compute. Qed.

(** * Further properties of the code *)

(** ** Config loader *)

(** X1: the loader succeeds exactly when each of the five required
    variables is set to a non-empty value. *)
Theorem loader_succeeds_iff (environ : gmap string string) :
  (exists config, get_config_from_env environ = Ok config) <->
  (forall v, In v required_vars -> exists s, environ !! v = Some s /\ s <> "").
Proof.
  split.
  - intros (config & Hrun) v Hv.
    apply truthy_getenv. by apply (loader_ok_inv environ config Hrun).
  - intros Hall.
    destruct (get_config_from_env environ) as [config|e] eqn:Hrun; [by eexists|].
    exfalso.
    assert (Htruthy : forall v, In v required_vars ->
                                truthy (getenv environ v) = true).
    { intros v Hv. destruct (Hall v Hv) as (s & Hs & Hne). unfold getenv.
      rewrite Hs. destruct s; [done | reflexivity]. }
    revert Hrun. unfold get_config_from_env. cbv zeta.
    cbn [List.filter map fst].
    rewrite !Htruthy by (simpl; tauto). done.
Qed.

(** X2: POSTGRES_PORT is never checked.  Setting it, to any string and also
    to the empty one, leaves a failure of the loader unchanged and changes
    a returned configuration in its port field only, which becomes that
    string. *)
Theorem loader_port_not_checked (environ : gmap string string) (p : string) :
  match get_config_from_env environ with
  | Raise e => get_config_from_env (<["POSTGRES_PORT" := p]> environ) = Raise e
  | Ok config =>
      get_config_from_env (<["POSTGRES_PORT" := p]> environ) =
        Ok (<["postgres_port" := PStr p]> config)
  end.
Proof.
  assert (Hother : forall k, k <> "POSTGRES_PORT" ->
            getenv (<["POSTGRES_PORT" := p]> environ) k = getenv environ k).
  { intros k Hk. unfold getenv. by rewrite lookup_insert_ne. }
  unfold get_config_from_env. cbv zeta. cbn [List.filter map fst].
  rewrite !Hother by done.
  destruct (truthy (getenv environ "AZURE_STORAGE_CONNECTION_STRING")); [|done].
  destruct (truthy (getenv environ "POSTGRES_HOST"));
  destruct (truthy (getenv environ "POSTGRES_DB"));
  destruct (truthy (getenv environ "POSTGRES_USER"));
  destruct (truthy (getenv environ "POSTGRES_PASSWORD")); try done.
  cbn [negb]. f_equal. unfold getenv_default. rewrite lookup_insert_eq.
  rewrite (insert_insert_ne _ "postgres_port" "storage_connection_string") by done.
  rewrite (insert_insert_ne _ "postgres_port" "postgres_host") by done.
  by rewrite insert_insert_eq.
Qed.

(** X3: the failure message of the loader names no required variable that
    is set to a non-empty value: a variable that is named is missing. *)
Theorem loader_names_only_missing (environ : gmap string string) (e : exn)
    (v : string) :
  get_config_from_env environ = Raise e ->
  In v required_vars ->
  Text.names (exn_msg e) v ->
  missing environ v.
Proof.
  unfold get_config_from_env, missing, Text.names. cbv zeta.
  cbn [List.filter map fst].
  destruct (truthy (getenv environ "AZURE_STORAGE_CONNECTION_STRING")) eqn:E0;
  [ destruct (truthy (getenv environ "POSTGRES_HOST")) eqn:E1;
    destruct (truthy (getenv environ "POSTGRES_DB")) eqn:E2;
    destruct (truthy (getenv environ "POSTGRES_USER")) eqn:E3;
    destruct (truthy (getenv environ "POSTGRES_PASSWORD")) eqn:E4 | ];
  cbn [negb]; intros [= <-];
  intros [<-|[<-|[<-|[<-|[<-|[]]]]]] Hnamed;
  first [assumption | vm_compute in Hnamed; discriminate].
Qed.

(** The message about POSTGRES_DB and POSTGRES_USER names POSTGRES_DB. *)
Lemma loader_names_only_missing_witness :
  missing Sample.environ_without_db_and_user "POSTGRES_DB".
Proof.
  apply (loader_names_only_missing Sample.environ_without_db_and_user
           (Exn ValueError "缺少PostgreSQL环境变量: POSTGRES_DB, POSTGRES_USER")
           "POSTGRES_DB").
  - reflexivity.
  - simpl. tauto.
  - reflexivity.
Defined.

(** X4: a configuration returned by the loader has exactly the six keys;
    the five fields other than the port are non-empty strings and the port
    is a string. *)
Theorem loader_result_well_formed (environ : gmap string string)
    (config : gmap string pyval) :
  get_config_from_env environ = Ok config ->
  dom config =
    ({[ "storage_connection_string"; "postgres_host"; "postgres_port";
        "postgres_db"; "postgres_user"; "postgres_password" ]} : gset string) /\
  (forall k,
     In k [ "storage_connection_string"; "postgres_host"; "postgres_db";
            "postgres_user"; "postgres_password" ] ->
     exists s, config !! k = Some (PStr s) /\ s <> "") /\
  (exists p, config !! "postgres_port" = Some (PStr p)).
Proof.
  intros Hrun. destruct (loader_ok_inv environ config Hrun) as (Htruthy & ->).
  assert (Hval : forall v, In v required_vars ->
            exists s, getenv environ v = PStr s /\ s <> "").
  { intros v Hv. destruct (truthy_getenv environ v (Htruthy v Hv)) as (s & Hs & Hne).
    exists s. unfold getenv. by rewrite Hs. }
  split; [|split].
  - rewrite !dom_insert_L, dom_empty_L. set_solver.
  - intros k [<-|[<-|[<-|[<-|[<-|[]]]]]]; simplify_map_eq;
      match goal with
      | |- exists s, Some (getenv environ ?v) = _ /\ _ =>
          destruct (Hval v) as (s & -> & Hne); [eauto 10 | by exists s]
      end.
  - simplify_map_eq. unfold getenv_default.
    destruct (environ !! "POSTGRES_PORT"); by eexists.
Qed.

(** The configuration loaded from the sample environment. *)
Lemma loader_result_well_formed_witness :
  dom Sample.config =
    ({[ "storage_connection_string"; "postgres_host"; "postgres_port";
        "postgres_db"; "postgres_user"; "postgres_password" ]} : gset string) /\
  (forall k,
     In k [ "storage_connection_string"; "postgres_host"; "postgres_db";
            "postgres_user"; "postgres_password" ] ->
     exists s, Sample.config !! k = Some (PStr s) /\ s <> "") /\
  (exists p, Sample.config !! "postgres_port" = Some (PStr p)).
Proof.
  apply (loader_result_well_formed Sample.environ Sample.config).
  reflexivity.
Defined.

(** ** Object-store probe *)

(** X5: when the storage client cannot be built from the connection
    string, the probe stops there: the only request of the run is that
    one, no identifier is drawn, nothing is created or uploaded, and the
    exception is raised unchanged (after one error record when it is an
    instance of [Exception]). *)
Theorem storage_client_failure_stops (O : Outside) (cs : pyval) (st : state)
    (e : exn) :
  from_connection_string O (trace st) cs = Raise e ->
  upload_test_file_to_blob O cs st =
    (Raise e,
     State (trace st ++
            Called (BlobServiceClient_from_connection_string cs) ::
            (if is_Exception e
             then [Logged ERROR ("Blob Storage操作失败: " +:+ exn_msg e)]
             else []))
           (connection st)).
Proof.
  intros Hclient. unfold_program. rewrite Hclient.
  destruct (is_Exception e); cbn [trace connection]; [|reflexivity].
  by rewrite <- app_assoc.
Qed.

(** The run against a storage account that rejects the connection string. *)
Lemma storage_client_failure_stops_witness :
  upload_test_file_to_blob Sample.storage_down (PStr "cs") initial =
    (Raise (Exn ValueError "Connection string is either blank or malformed."),
     State [ Called (BlobServiceClient_from_connection_string (PStr "cs"));
             Logged ERROR
               "Blob Storage操作失败: Connection string is either blank or malformed." ]
           None).
Proof.
  apply (storage_client_failure_stops Sample.storage_down (PStr "cs") initial
           (Exn ValueError "Connection string is either blank or malformed.")).
  reflexivity.
Defined.

(** How a failed run of the object-store probe ends. *)
Lemma upload_failure_trace (O : Outside) (cs : pyval) (st : state)
    (e : exn) (st1 : state) :
  upload_test_file_to_blob O cs st = (Raise e, st1) ->
  exists added,
    trace st1 = trace st ++ added /\
    error_logs added =
      (if is_Exception e then ["Blob Storage操作失败: " +:+ exn_msg e] else []) /\
    (is_Exception e = true ->
     last added = Some (Logged ERROR ("Blob Storage操作失败: " +:+ exn_msg e))).
Proof.
  unfold_program. cbn [trace connection].
  repeat (step; cbn [trace connection]); intros H; simplify_eq;
    try congruence;
    normalise_trace; eexists; (split; [reflexivity|]);
    repeat match goal with
           | H : is_Exception _ = _ |- _ => rewrite H; clear H
           end;
    (split; [reflexivity | first [reflexivity | by intros [=]]]).
Qed.

(** X6: a failed run of the object-store probe writes exactly one error
    record, the last event of the run, holding the message of the exception
    it raises, when that exception is an instance of [Exception]; otherwise
    it writes none. *)
Theorem upload_failure_logged_once (O : Outside) (cs : pyval) (st : state)
    (e : exn) (st1 : state) :
  upload_test_file_to_blob O cs st = (Raise e, st1) ->
  error_logs (events_since st st1) =
    (if is_Exception e then ["Blob Storage操作失败: " +:+ exn_msg e] else []) /\
  (is_Exception e = true ->
   last (events_since st st1) =
     Some (Logged ERROR ("Blob Storage操作失败: " +:+ exn_msg e))).
Proof.
  intros Hrun.
  destruct (upload_failure_trace O cs st e st1 Hrun) as (added & Htrace & Hlogs).
  by rewrite (events_since_app st st1 added Htrace).
Qed.

(** The run against a storage account that refuses the upload. *)
Lemma upload_failure_logged_once_witness :
  error_logs
    (events_since initial
       (upload_test_file_to_blob Sample.upload_rejected (PStr "cs") initial).2) =
    ["Blob Storage操作失败: The account is read-only."] /\
  (true = true ->
   last (events_since initial
           (upload_test_file_to_blob Sample.upload_rejected (PStr "cs") initial).2) =
     Some (Logged ERROR "Blob Storage操作失败: The account is read-only.")).
Proof.
  apply (upload_failure_logged_once Sample.upload_rejected (PStr "cs") initial
           (Exn (LibraryError "HttpResponseError") "The account is read-only.")).
  vm_compute. reflexivity.
Defined.

(** X7: an exception of container creation that is not an instance of
    [Exception] (an interrupt) is not taken for an existing container: it
    leaves the probe at once, unlogged, and nothing is uploaded. *)
Theorem create_container_interrupt_propagates (O : Outside) (cs : pyval)
    (st : state) (svc : BlobServiceClient) (e : exn) :
  let name_id :=
    uuid_uuid4 O (trace st ++ [Called (BlobServiceClient_from_connection_string cs)]) in
  let container := Container svc "test-container" in
  from_connection_string O (trace st) cs = Ok svc ->
  create_container O
    (trace st ++ [ Called (BlobServiceClient_from_connection_string cs);
                   Uuid4 name_id ])
    container = Raise e ->
  is_Exception e = false ->
  upload_test_file_to_blob O cs st =
    (Raise e,
     State (trace st ++
            [ Called (BlobServiceClient_from_connection_string cs);
              Uuid4 name_id;
              Called (ContainerClient_create_container container) ])
           (connection st)).
Proof.
  cbn zeta. intros Hsvc Hcreate Hexn.
  unfold_program. rewrite Hsvc. cbn [trace connection].
  rewrite <- app_assoc. cbn [app]. rewrite Hcreate, !Hexn.
  cbn [trace connection]. by rewrite <- !app_assoc.
Qed.

(** The run interrupted during container creation. *)
Lemma create_container_interrupt_propagates_witness :
  upload_test_file_to_blob Sample.interrupted (PStr "cs") initial =
    (Raise (Exn KeyboardInterrupt ""),
     State [ Called (BlobServiceClient_from_connection_string (PStr "cs"));
             Uuid4 (Uuid 12379813738877118346);
             Called (ContainerClient_create_container
                       (Container (Service 1) "test-container")) ]
           None).
Proof.
  apply (create_container_interrupt_propagates Sample.interrupted (PStr "cs")
           initial (Service 1) (Exn KeyboardInterrupt "")); reflexivity.
Defined.

(** X8: the blob written by a successful run holds exactly four lines: a
    title, the ISO text of a clock reading, the text of a UUID and a closing
    sentence, with no blank before or after.  The UUID in the content is a
    second draw, made after the one that names the blob. *)
Theorem upload_content (O : Outside) (cs : pyval) (st : state)
    (s : string) (st' : state) :
  upload_test_file_to_blob O cs st = (Ok s, st') ->
  exists blob name_id now file_id,
    uploads (events_since st st') =
      [ (blob,
         "测试文件内容" +:+ Text.nl +:+
         "上传时间: " +:+ isoformat now +:+ Text.nl +:+
         "文件ID: " +:+ str_uuid file_id +:+ Text.nl +:+
         "这是一个用于测试Azure Blob Storage上传功能的文件。",
         true) ] /\
    blob_name_of blob = "test-file-" +:+ str_uuid name_id +:+ ".txt" /\
    exists before between after,
      events_since st st' =
        before ++ Uuid4 name_id :: between ++
        Utcnow now :: Uuid4 file_id :: after.
Proof.
  unfold_program. cbn zeta. repeat step; intros H; simplify_eq.
  all: erewrite events_since_app by (normalise_trace; reflexivity).
  all: do 4 eexists; split; [reflexivity|]; split; [reflexivity|].
  all: by eexists [_], [_; _], [_].
Qed.

(** The blob written against a healthy storage account. *)
Lemma upload_content_witness :
  exists blob name_id now file_id,
    uploads (events_since initial
               (upload_test_file_to_blob Sample.healthy (PStr "cs") initial).2) =
      [ (blob,
         "测试文件内容" +:+ Text.nl +:+
         "上传时间: " +:+ isoformat now +:+ Text.nl +:+
         "文件ID: " +:+ str_uuid file_id +:+ Text.nl +:+
         "这是一个用于测试Azure Blob Storage上传功能的文件。",
         true) ] /\
    blob_name_of blob = "test-file-" +:+ str_uuid name_id +:+ ".txt" /\
    exists before between after,
      events_since initial
        (upload_test_file_to_blob Sample.healthy (PStr "cs") initial).2 =
        before ++ Uuid4 name_id :: between ++
        Utcnow now :: Uuid4 file_id :: after.
Proof.
  apply (upload_content Sample.healthy (PStr "cs") initial
           "文件上传成功: test-file-00000000-0000-0000-abcd-ef012345678a.txt").
  vm_compute. reflexivity.
Defined.

(** ** Database probe *)

(** X9: a configuration that lacks one of the five keys the probe reads
    makes it raise KeyError for the first key that is missing, before any
    request: nothing is connected, rolled back or closed, and the run
    consists of the error record. *)
Theorem missing_config_key_raises (O : Outside) (config : gmap string pyval)
    (st : state) (k : string) :
  In k connect_keys ->
  config !! k = None ->
  exists before k' after,
    connect_keys = before ++ k' :: after /\
    Forall (fun key => is_Some (config !! key)) before /\
    config !! k' = None /\
    test_postgres_connection O config st =
      (Raise (Exn KeyError ("'" +:+ k' +:+ "'")),
       State (trace st ++ [Logged ERROR ("PostgreSQL操作失败: '" +:+ k' +:+ "'")])
             None).
Proof.
  intros Hk Hnone.
  destruct (config !! "postgres_host") as [host|] eqn:Hh;
    [|exists [], "postgres_host", (tail connect_keys);
      (split; [reflexivity|]); (split; [constructor|]); (split; [done|]);
      unfold_program; by rewrite Hh].
  destruct (config !! "postgres_port") as [port|] eqn:Hp;
    [|exists (take 1 connect_keys), "postgres_port", (drop 2 connect_keys);
      (split; [reflexivity|]); (split; [repeat constructor; by rewrite ?Hh|]);
      (split; [done|]); unfold_program; by rewrite Hh, Hp].
  destruct (config !! "postgres_db") as [database|] eqn:Hd;
    [|exists (take 2 connect_keys), "postgres_db", (drop 3 connect_keys);
      (split; [reflexivity|]);
      (split; [repeat constructor; by rewrite ?Hh, ?Hp|]);
      (split; [done|]); unfold_program; by rewrite Hh, Hp, Hd].
  destruct (config !! "postgres_user") as [user|] eqn:Hu;
    [|exists (take 3 connect_keys), "postgres_user", (drop 4 connect_keys);
      (split; [reflexivity|]);
      (split; [repeat constructor; by rewrite ?Hh, ?Hp, ?Hd|]);
      (split; [done|]); unfold_program; by rewrite Hh, Hp, Hd, Hu].
  destruct (config !! "postgres_password") as [password|] eqn:Hw;
    [|exists (take 4 connect_keys), "postgres_password", [];
      (split; [reflexivity|]);
      (split; [repeat constructor; by rewrite ?Hh, ?Hp, ?Hd, ?Hu|]);
      (split; [done|]); unfold_program; by rewrite Hh, Hp, Hd, Hu, Hw].
  exfalso. destruct Hk as [<-|[<-|[<-|[<-|[<-|[]]]]]]; congruence.
Qed.

(** The run of the probe on a configuration without the database name. *)
Lemma missing_config_key_raises_witness :
  exists before k' after,
    connect_keys = before ++ k' :: after /\
    Forall (fun key => is_Some (Sample.config_without_db !! key)) before /\
    Sample.config_without_db !! k' = None /\
    test_postgres_connection Sample.healthy Sample.config_without_db initial =
      (Raise (Exn KeyError ("'" +:+ k' +:+ "'")),
       State ([] ++ [Logged ERROR ("PostgreSQL操作失败: '" +:+ k' +:+ "'")]) None).
Proof.
  apply (missing_config_key_raises Sample.healthy Sample.config_without_db
           initial "postgres_db").
  - simpl. tauto.
  - reflexivity.
Defined.


(** Where a [try] block that returned has left the probe. *)
Lemma transaction_success_trace (O : Outside) (config : gmap string pyval)
    (st0 : state) (s : string) (st1 : state) :
  postgres_transaction O config st0 = (Ok s, st1) ->
  exists c before,
    connection st1 = Some c /\
    trace st1 = trace st0 ++ before ++ [Called (connection_commit c)] /\
    forallb (fun ev => negb (ends_transaction ev)) before = true.
Proof.
  unfold_program. cbn [trace connection].
  repeat (step; cbn [trace connection]); intros H; simplify_eq.
  eexists _, [_; _; _; _; _; _; _; _].
  split; [reflexivity|]. split; [normalise_trace; reflexivity | reflexivity].
Qed.

(** X11: when closing the connection raises after the [try] block has
    returned, the probe raises that exception instead of returning its
    message; the commit was the last request before the close and nothing
    is rolled back, so the row stays committed. *)
Theorem close_failure_after_commit (O : Outside) (config : gmap string pyval)
    (st : state) (s : string) (st1 : state) :
  postgres_transaction O config (State (trace st) None) = (Ok s, st1) ->
  exists c before,
    connection st1 = Some c /\
    trace st1 = trace st ++ before ++ [Called (connection_commit c)] /\
    forallb (fun ev => negb (ends_transaction ev)) before = true /\
    forall e,
      close O (trace st1) c = Raise e ->
      test_postgres_connection O config st =
        (Raise e, State (trace st1 ++ [Called (connection_close c)]) (Some c)).
Proof.
  intros Htx.
  destruct (transaction_success_trace O config _ s st1 Htx)
    as (c & before & Hconn & Htrace & Hquiet).
  exists c, before. split; [done|]. split; [done|]. split; [done|].
  intros e Hclose. rewrite (postgres_unwind O config st _ st1 Htx).
  unfold postgres_finally, bind, get_connection, request, ret, emit.
  rewrite Hconn, Hclose. cbn [trace connection]. by rewrite Hconn.
Qed.

(** The run of the probe against a connection that cannot be closed. *)
Lemma close_failure_after_commit_witness :
  exists c before,
    connection (postgres_transaction Sample.close_fails Sample.config
                  (State [] None)).2 = Some c /\
    trace (postgres_transaction Sample.close_fails Sample.config
             (State [] None)).2 =
      [] ++ before ++ [Called (connection_commit c)] /\
    forallb (fun ev => negb (ends_transaction ev)) before = true /\
    forall e,
      close Sample.close_fails
        (trace (postgres_transaction Sample.close_fails Sample.config
                  (State [] None)).2) c = Raise e ->
      test_postgres_connection Sample.close_fails Sample.config initial =
        (Raise e,
         State (trace (postgres_transaction Sample.close_fails Sample.config
                         (State [] None)).2 ++ [Called (connection_close c)])
               (Some c)).
Proof.
  apply (close_failure_after_commit Sample.close_fails Sample.config initial
           "表创建成功，插入记录ID: 7").
  vm_compute. reflexivity.
Defined.

(** The run behind the witness: the probe raises although the commit went
    through. *)
Example close_failure_run :
  exists history,
    test_postgres_connection Sample.close_fails Sample.config initial =
      (Raise (Exn (LibraryError "InterfaceError") "connection already closed"),
       State (history ++
              [ Called (connection_commit (Conn 1));
                Called (connection_close (Conn 1)) ])
             (Some (Conn 1))) /\
    forallb (fun ev => negb (ends_transaction ev)) history = true.
Proof. eexists (_ :: _ :: _ :: _ :: _ :: _ :: _ :: [_]). by vm_compute. Qed.

(** X12: when the rollback itself raises, the exception of the [try]
    block is lost: the probe raises the exception of the rollback, or that
    of the close when the close raises too, and writes no error record;
    after the [try] block the run consists of the rollback and the close. *)
Theorem rollback_failure_masks (O : Outside) (config : gmap string pyval)
    (st : state) (e : exn) (st1 : state) (c : Connection) (e1 : exn) :
  postgres_transaction O config (State (trace st) None) = (Raise e, st1) ->
  is_Exception e = true ->
  connection st1 = Some c ->
  rollback O (trace st1) c = Raise e1 ->
  test_postgres_connection O config st =
    (Raise (match close O (trace st1 ++ [Called (connection_rollback c)]) c with
            | Ok _ => e1
            | Raise e2 => e2
            end),
     State (trace st1 ++
            [Called (connection_rollback c); Called (connection_close c)])
           (Some c)).
Proof.
  intros Htx Hexn Hconn Hrollback.
  rewrite (postgres_unwind O config st _ st1 Htx). rewrite Hexn.
  unfold postgres_on_error, postgres_finally, bind, get_connection, request,
    logger_error, raise, ret, emit.
  rewrite Hconn, Hrollback. cbn [trace connection]. rewrite Hconn.
  destruct (close O _ c) as [[]|e2]; cbn [trace connection];
    rewrite <- ?app_assoc; reflexivity.
Qed.

(** The run of the probe against a connection lost during the commit. *)
Lemma rollback_failure_masks_witness :
  test_postgres_connection Sample.rollback_fails Sample.config initial =
    (Raise (Exn (LibraryError "InterfaceError") "connection already closed"),
     State (trace (postgres_transaction Sample.rollback_fails Sample.config
                     (State [] None)).2 ++
            [ Called (connection_rollback (Conn 1));
              Called (connection_close (Conn 1)) ])
           (Some (Conn 1))).
Proof.
  apply (rollback_failure_masks Sample.rollback_fails Sample.config initial
           (Exn (LibraryError "OperationalError") "server closed the connection")
           _ (Conn 1)
           (Exn (LibraryError "InterfaceError") "connection already closed"));
    vm_compute; reflexivity.
Defined.

(** ** Orchestrator *)

Lemma upload_first_request (O : Outside) (cs : pyval) (st : state) :
  exists rest,
    trace (upload_test_file_to_blob O cs st).2 =
      trace st ++ Called (BlobServiceClient_from_connection_string cs) :: rest.
Proof.
  unfold_program. cbn [trace connection fst snd].
  repeat (step; cbn [trace connection fst snd]);
    normalise_trace; eexists; reflexivity.
Qed.

Lemma postgres_first_request (O : Outside) (config : gmap string pyval)
    (st : state) (host port database user password : pyval) :
  config !! "postgres_host" = Some host ->
  config !! "postgres_port" = Some port ->
  config !! "postgres_db" = Some database ->
  config !! "postgres_user" = Some user ->
  config !! "postgres_password" = Some password ->
  exists rest,
    trace (test_postgres_connection O config st).2 =
      trace st ++ Called (psycopg2_connect host port database user password) :: rest.
Proof.
  intros Hh Hp Hd Hu Hw. unfold_program. rewrite Hh, Hp, Hd, Hu, Hw.
  cbn [trace connection fst snd].
  repeat (step; cbn [trace connection fst snd]);
    normalise_trace; eexists; reflexivity.
Qed.

(** X13: [main] hands the values of the environment on unchanged: its
    first request builds the storage client from the value of
    AZURE_STORAGE_CONNECTION_STRING, and once the object-store probe has
    returned, its next request is the connection to the database with the
    values of POSTGRES_HOST, POSTGRES_PORT (5432 when unset), POSTGRES_DB,
    POSTGRES_USER and POSTGRES_PASSWORD. *)
Theorem main_passes_environment (O : Outside) (st : state)
    (config : gmap string pyval) :
  let environ := os_environ O in
  let st0 := emit (Logged INFO "成功读取环境变量配置") st in
  let storage := getenv environ "AZURE_STORAGE_CONNECTION_STRING" in
  get_config_from_env environ = Ok config ->
  (exists rest,
     events_since st (main O st).2 =
       Logged INFO "成功读取环境变量配置" ::
       Called (BlobServiceClient_from_connection_string storage) :: rest) /\
  (forall blob_result st1,
     upload_test_file_to_blob O storage st0 = (Ok blob_result, st1) ->
     exists rest,
       events_since st1 (main O st).2 =
         Logged INFO ("Blob Storage操作成功: " +:+ blob_result) ::
         Called (psycopg2_connect
                   (getenv environ "POSTGRES_HOST")
                   (getenv_default environ "POSTGRES_PORT" "5432")
                   (getenv environ "POSTGRES_DB")
                   (getenv environ "POSTGRES_USER")
                   (getenv environ "POSTGRES_PASSWORD")) :: rest).
Proof.
  cbv zeta. intros Hconfig. rewrite main_stages. cbv zeta. rewrite Hconfig.
  rewrite (loader_result_has_storage _ _ Hconfig).
  set (cs := getenv _ "AZURE_STORAGE_CONNECTION_STRING").
  set (st0 := emit (Logged INFO "成功读取环境变量配置") st).
  destruct (loader_ok_inv _ _ Hconfig) as (_ & Hmap).
  destruct (upload_first_request O cs st0) as (ru & Hu).
  destruct (upload_test_file_to_blob O cs st0) as [[blob_result|e] st1];
    cbn [snd] in Hu.
  - set (st1' := emit (Logged INFO ("Blob Storage操作成功: " +:+ blob_result)) st1).
    destruct (postgres_first_request O config st1'
                (getenv (os_environ O) "POSTGRES_HOST")
                (getenv_default (os_environ O) "POSTGRES_PORT" "5432")
                (getenv (os_environ O) "POSTGRES_DB")
                (getenv (os_environ O) "POSTGRES_USER")
                (getenv (os_environ O) "POSTGRES_PASSWORD")) as (rp & Hp);
      try (rewrite Hmap; by simplify_map_eq).
    assert (Hst1' : trace st1' = trace st1 ++ [Logged INFO ("Blob Storage操作成功: " +:+ blob_result)])
      by reflexivity.
    assert (Hst0 : trace st0 = trace st ++ [Logged INFO "成功读取环境变量配置"])
      by reflexivity.
    destruct (test_postgres_connection O config st1') as [[db_result|e] st2];
      cbn [snd] in Hp; unfold reported, emit; cbn [snd trace];
      try destruct (is_Exception e); cbn [trace];
      (split; [|intros ? ? [= <- <-]]); eexists; apply events_since_app;
      rewrite Hp, Hst1', ?Hu, ?Hst0; rewrite <- !app_assoc; cbn [app];
      reflexivity.
  - unfold reported, emit; cbn [snd trace].
    (split; [|intros ? ? [=]]).
    destruct (is_Exception e); cbn [trace]; eexists; apply events_since_app;
      rewrite Hu; unfold st0, emit; cbn [trace]; rewrite <- !app_assoc;
      cbn [app]; reflexivity.
Qed.

(** The first requests of [main] in the sample environment. *)
Lemma main_passes_environment_witness :
  (exists rest,
     events_since initial (main Sample.healthy initial).2 =
       Logged INFO "成功读取环境变量配置" ::
       Called (BlobServiceClient_from_connection_string
                 (PStr "UseDevelopmentStorage=true")) :: rest) /\
  (forall blob_result st1,
     upload_test_file_to_blob Sample.healthy (PStr "UseDevelopmentStorage=true")
       (emit (Logged INFO "成功读取环境变量配置") initial) = (Ok blob_result, st1) ->
     exists rest,
       events_since st1 (main Sample.healthy initial).2 =
         Logged INFO ("Blob Storage操作成功: " +:+ blob_result) ::
         Called (psycopg2_connect (PStr "localhost") (PStr "5432")
                   (PStr "postgres") (PStr "admin") (PStr "secret")) :: rest).
Proof.
  apply (main_passes_environment Sample.healthy initial Sample.config).
  reflexivity.
Defined.

Lemma error_logs_app (l1 l2 : list event) :
  error_logs (l1 ++ l2) = error_logs l1 ++ error_logs l2.
Proof. apply omap_app. Qed.

(** X14: a failure of the object-store probe is reported twice: the run
    of [main] holds two error records with the message of the exception,
    the one of the probe and then the one of [main], and [main] raises that
    exception. *)
Theorem storage_failure_logged_twice (O : Outside) (st : state)
    (config : gmap string pyval) (e : exn) (st1 : state) :
  let st0 := emit (Logged INFO "成功读取环境变量配置") st in
  get_config_from_env (os_environ O) = Ok config ->
  upload_test_file_to_blob O
    (getenv (os_environ O) "AZURE_STORAGE_CONNECTION_STRING") st0 = (Raise e, st1) ->
  is_Exception e = true ->
  (main O st).1 = Raise e /\
  error_logs (events_since st (main O st).2) =
    [ "Blob Storage操作失败: " +:+ exn_msg e; "操作失败: " +:+ exn_msg e ].
Proof.
  cbv zeta. intros Hconfig Hup Hexn.
  destruct (upload_failure_trace O _ _ e st1 Hup) as (added & Htrace & Hlogs & _).
  rewrite Hexn in Hlogs.
  rewrite main_stages. cbv zeta. rewrite Hconfig.
  rewrite (loader_result_has_storage _ _ Hconfig), Hup.
  unfold reported. rewrite Hexn. cbn [fst snd]. split; [reflexivity|].
  erewrite events_since_emit
    by (rewrite Htrace; unfold emit; cbn [trace]; rewrite <- app_assoc; reflexivity).
  rewrite !error_logs_app, Hlogs. reflexivity.
Qed.

(** The run of [main] against a storage account that refuses the upload. *)
Lemma storage_failure_logged_twice_witness :
  (main Sample.upload_rejected initial).1 =
    Raise (Exn (LibraryError "HttpResponseError") "The account is read-only.") /\
  error_logs (events_since initial (main Sample.upload_rejected initial).2) =
    [ "Blob Storage操作失败: The account is read-only.";
      "操作失败: The account is read-only." ].
Proof.
  apply (storage_failure_logged_twice Sample.upload_rejected initial Sample.config
           (Exn (LibraryError "HttpResponseError") "The account is read-only.")
           (upload_test_file_to_blob Sample.upload_rejected
              (PStr "UseDevelopmentStorage=true")
              (emit (Logged INFO "成功读取环境变量配置") initial)).2);
    vm_compute; reflexivity.
Defined.

Lemma upload_error_records (O : Outside) (cs : pyval) (st : state) :
  exists added,
    trace (upload_test_file_to_blob O cs st).2 = trace st ++ added /\
    match (upload_test_file_to_blob O cs st).1 with
    | Ok _ => error_logs added = []
    | Raise _ => length (error_logs added) <= 1
    end.
Proof.
  unfold_program. cbn [trace connection fst snd].
  repeat (step; cbn [trace connection fst snd]);
    normalise_trace; eexists;
    (split; [first [reflexivity | symmetry; apply app_nil_r]|]);
    first [reflexivity | simpl; lia].
Qed.

Lemma postgres_error_records (O : Outside) (config : gmap string pyval)
    (st : state) :
  exists added,
    trace (test_postgres_connection O config st).2 = trace st ++ added /\
    match (test_postgres_connection O config st).1 with
    | Ok _ => error_logs added = []
    | Raise _ => length (error_logs added) <= 1
    end.
Proof.
  unfold_program. cbn [trace connection fst snd].
  repeat (step; cbn [trace connection fst snd]);
    normalise_trace; eexists;
    (split; [first [reflexivity | symmetry; apply app_nil_r]|]);
    first [reflexivity | simpl; lia].
Qed.

(** X15: a run of [main] that returns holds no error record, whatever
    happened to container creation.  A run that raises an instance of
    [Exception] ends with the error record of [main] for that exception,
    after at most one error record of the stage that failed. *)
Theorem main_error_records (O : Outside) (st : state) :
  match (main O st).1 with
  | Ok _ => error_logs (events_since st (main O st).2) = []
  | Raise e =>
      exists stage_records,
        length stage_records <= 1 /\
        error_logs (events_since st (main O st).2) =
          stage_records ++
          (if is_Exception e then ["操作失败: " +:+ exn_msg e] else [])
  end.
Proof.
  rewrite main_stages. cbv zeta.
  destruct (get_config_from_env (os_environ O)) as [config|e] eqn:Hconfig.
  - rewrite (loader_result_has_storage _ _ Hconfig).
    set (cs := getenv _ _).
    set (st0 := emit (Logged INFO "成功读取环境变量配置") st).
    destruct (upload_error_records O cs st0) as (au & Hau & Hlu).
    destruct (upload_test_file_to_blob O cs st0) as [[blob_result|e] st1];
      cbn [fst snd] in Hau, Hlu.
    + set (st1' := emit (Logged INFO ("Blob Storage操作成功: " +:+ blob_result)) st1).
      destruct (postgres_error_records O config st1') as (ap & Hap & Hlp).
      assert (Hst1' : trace st1' =
                trace st ++ [Logged INFO "成功读取环境变量配置"] ++ au ++
                [Logged INFO ("Blob Storage操作成功: " +:+ blob_result)]).
      { unfold st1', st0, emit in *. cbn [trace] in *. rewrite Hau.
        by rewrite <- !app_assoc. }
      rewrite Hst1' in Hap.
      destruct (test_postgres_connection O config st1') as [[db_result|e] st2];
        cbn [fst snd] in Hap, Hlp |- *.
      * erewrite events_since_emit by (rewrite Hap, <- !app_assoc; reflexivity).
        rewrite !error_logs_app, Hlu, Hlp. reflexivity.
      * exists (error_logs ap). split; [done|].
        erewrite events_since_reported by (rewrite Hap, <- !app_assoc; reflexivity).
        rewrite !error_logs_app, Hlu.
        by destruct (is_Exception e).
    + exists (error_logs au). split; [done|].
      erewrite events_since_reported
        by (rewrite Hau; unfold st0, emit; cbn [trace]; rewrite <- !app_assoc;
            reflexivity).
      rewrite !error_logs_app.
      by destruct (is_Exception e).
  - exists []. split; [simpl; lia|].
    erewrite events_since_reported by (symmetry; apply app_nil_r).
    by destruct (is_Exception e).
Qed.

(** X16: run as a script, the file prints one line, the text 执行结果:
    Success, when [main] returns, and prints nothing when [main]
    raises; the exception then leaves the script. *)
Theorem script_prints_success_or_nothing (O : Outside) (st : state) :
  match (main O st).1 with
  | Ok _ =>
      run_as_script O st = (Ok tt, (main O st).2, ["执行结果: Success"])
  | Raise e =>
      run_as_script O st = (Raise e, (main O st).2, [])
  end.
Proof.
  unfold run_as_script. rewrite main_stages. cbv zeta.
  destruct (get_config_from_env (os_environ O)) as [config|e]; [|done].
  destruct (config !! "storage_connection_string") as [cs|]; [|done].
  destruct (upload_test_file_to_blob O cs _) as [[blob_result|e] st1]; [|done].
  by destruct (test_postgres_connection O config _) as [[db_result|e] st2].
Qed.

(** ** Blob names *)

Lemma hex_char_inj (a b : N) :
  (a < 16)%N -> (b < 16)%N -> hex_char a = hex_char b -> a = b.
Proof.
  intros Ha Hb.
  assert (Hcases : forall x, (x < 16)%N ->
            In x [0; 1; 2; 3; 4; 5; 6; 7; 8; 9; 10; 11; 12; 13; 14; 15]%N).
  { intros x Hx. destruct x as [|p]; [simpl; tauto|].
    do 4 (destruct p as [p|p|]; try (simpl; tauto); try lia). }
  pose proof (Hcases a Ha) as Ia. pose proof (Hcases b Hb) as Ib.
  simpl in Ia, Ib.
  repeat (destruct Ia as [<-|Ia]; [
    repeat (destruct Ib as [<-|Ib]; [first [reflexivity | intros [=]]|]);
    destruct Ib |]).
  destruct Ia.
Qed.

(** The digits printed determine the number, up to the width printed. *)
Lemma zfill_hex_inj (width : nat) (n m : N) :
  zfill_hex width n = zfill_hex width m ->
  (n mod 16 ^ N.of_nat width = m mod 16 ^ N.of_nat width)%N.
Proof.
  revert n m. induction width as [|w IH]; intros n m H.
  - by rewrite !N.mod_1_r.
  - cbn [zfill_hex] in H. apply append_last_inj in H as [Hhigh Hlow].
    apply IH in Hhigh.
    apply hex_char_inj in Hlow; [|by apply N.mod_lt..].
    rewrite Nat2N.inj_succ, N.pow_succ_r'.
    rewrite !N.Div0.mod_mul_r. by rewrite Hhigh, Hlow.
Qed.

Lemma str_uuid_digits (u : UUID) :
  let s := str_uuid u in
  substring 0 8 s +:+ substring 9 4 s +:+ substring 14 4 s +:+
  substring 19 4 s +:+ substring 24 12 s = zfill_hex 32 (uuid_int u).
Proof. reflexivity. Qed.

Lemma str_uuid_inj (u v : UUID) :
  (uuid_int u < 2 ^ 128)%N ->
  (uuid_int v < 2 ^ 128)%N ->
  str_uuid u = str_uuid v ->
  u = v.
Proof.
  intros Hu Hv Hstr.
  assert (Hhex : zfill_hex 32 (uuid_int u) = zfill_hex 32 (uuid_int v)).
  { rewrite <- !str_uuid_digits. cbv zeta. by rewrite Hstr. }
  apply zfill_hex_inj in Hhex.
  change (16 ^ N.of_nat 32)%N with (2 ^ 128)%N in Hhex.
  rewrite !N.mod_small in Hhex by assumption.
  destruct u, v. simpl in Hhex. by subst.
Qed.

(** X17: two successful runs of the object-store probe that write their
    blob under the same name have drawn the same UUID for the name, when
    the UUIDs drawn are 128-bit numbers: runs that draw different UUIDs
    never write under the same name. *)
Theorem blob_name_determines_uuid (O1 O2 : Outside) (cs1 cs2 : pyval)
    (st1 st2 : state) (s1 s2 : string) (st1' st2' : state) (u1 u2 : UUID) :
  upload_test_file_to_blob O1 cs1 st1 = (Ok s1, st1') ->
  upload_test_file_to_blob O2 cs2 st2 = (Ok s2, st2') ->
  head (uuids_drawn (events_since st1 st1')) = Some u1 ->
  head (uuids_drawn (events_since st2 st2')) = Some u2 ->
  (uuid_int u1 < 2 ^ 128)%N ->
  (uuid_int u2 < 2 ^ 128)%N ->
  blob_names (events_since st1 st1') = blob_names (events_since st2 st2') ->
  u1 = u2.
Proof.
  intros Hrun1 Hrun2 Hd1 Hd2 Hu1 Hu2 Hnames.
  destruct (upload_success_trace O1 cs1 st1 s1 st1' Hrun1)
    as (svc1 & id1 & log1 & now1 & file1 & content1 & Ht1 & _).
  destruct (upload_success_trace O2 cs2 st2 s2 st2' Hrun2)
    as (svc2 & id2 & log2 & now2 & file2 & content2 & Ht2 & _).
  cbn zeta in Ht1, Ht2. rewrite Ht1 in Hd1, Hnames. rewrite Ht2 in Hd2, Hnames.
  injection Hd1 as <-. injection Hd2 as <-.
  apply str_uuid_inj; [assumption..|].
  exact (f_equal (fun names => substring 10 36 (default "" (head names)))
                 Hnames).
Qed.

(** Two runs that draw the same UUID, one of them with container creation
    refused, write under the same name. *)
Lemma blob_name_determines_uuid_witness :
  Uuid 12379813738877118346 = Uuid 12379813738877118346.
Proof.
  apply (blob_name_determines_uuid Sample.healthy Sample.no_container_permission
           (PStr "cs") (PStr "cs") initial initial
           "文件上传成功: test-file-00000000-0000-0000-abcd-ef012345678a.txt"
           "文件上传成功: test-file-00000000-0000-0000-abcd-ef012345678a.txt"
           (upload_test_file_to_blob Sample.healthy (PStr "cs") initial).2
           (upload_test_file_to_blob Sample.no_container_permission
              (PStr "cs") initial).2);
    vm_compute; reflexivity.
Defined.

(** ** Rows that do not come back *)

(** X18: when the database returns no row for the INSERT ([None] or an
    empty tuple), the probe never commits and never returns: every run
    ends by raising. *)
Theorem no_row_no_commit (O : Outside) (config : gmap string pyval)
    (st : state) :
  (forall history cur,
     fetchone O history cur = Ok None \/ fetchone O history cur = Ok (Some [])) ->
  (exists e, (test_postgres_connection O config st).1 = Raise e) /\
  forallb (fun ev => negb (commits ev))
          (events_since st (test_postgres_connection O config st).2) = true.
Proof.
  intros Hnone.
  destruct (test_postgres_connection O config st) as [r st'] eqn:Hrun.
  revert Hrun. unfold_program. cbn [trace connection fst snd].
  repeat (step; cbn [trace connection fst snd]); intros Hrun; simplify_eq;
    try match goal with
        | H : fetchone O ?h ?cur = Ok (Some (_ :: _)) |- _ =>
            destruct (Hnone h cur); congruence
        end;
    erewrite events_since_app by (normalise_trace; reflexivity);
    (split; [by eexists | reflexivity]).
Qed.

(** The run of the probe against a database that returns no row: the
    subscript raises TypeError, the probe rolls back and closes. *)
Lemma no_row_no_commit_witness :
  (exists e,
     (test_postgres_connection Sample.no_row Sample.config initial).1 = Raise e) /\
  forallb (fun ev => negb (commits ev))
          (events_since initial
             (test_postgres_connection Sample.no_row Sample.config initial).2) = true.
Proof.
  apply (no_row_no_commit Sample.no_row Sample.config initial).
  intros history cur. left. reflexivity.
Defined.

Example no_row_run :
  exists history,
    test_postgres_connection Sample.no_row Sample.config initial =
      (Raise (Exn TypeError "'NoneType' object is not subscriptable"),
       State (history ++
              [ Called (cursor_fetchone (Cur 1));
                Called (connection_rollback (Conn 1));
                Logged ERROR
                  "PostgreSQL操作失败: 'NoneType' object is not subscriptable";
                Called (connection_close (Conn 1)) ])
             (Some (Conn 1))) /\
    forallb (fun ev => negb (ends_transaction ev)) history = true.
Proof. eexists (_ :: _ :: _ :: _ :: _ :: _ :: [_]). by vm_compute. Qed.
